(** * bivalve: a process-wide logging facade and an access-log middleware

    Shallow embedding of [bivalve.go] (the self-contained variant of the
    package) and the properties of its level gate, of [Configure], of the
    response interceptor [statusWriter] and of [webLoggingHandler.ServeHTTP].

    The Go program talks to four standard packages: [time], [fmt], [os] and
    [log].  The parts of those packages that the program reaches are written
    out below as executable definitions, each in a module named after the
    package; the program itself follows, function by function. *)

From Stdlib Require Import ZArith String Ascii List Lia Bool DecimalString.
From Stdlib Require Import Floats Uint63.
Import ListNotations.
Open Scope string_scope.
Open Scope Z_scope.

(** ** Text *)

Definition nl : string := String "010" EmptyString.
Definition esc : string := String "027" EmptyString.
Definition dquote : string := String "034" EmptyString.

(** Does [s] end with the line feed character? *)
Fixpoint endsWithNewline (s : string) : bool :=
  match s with
  | EmptyString => false
  | String c EmptyString => Ascii.eqb c "010"
  | String _ rest => endsWithNewline rest
  end.

Fixpoint zeros (n : nat) : string :=
  match n with
  | O => EmptyString
  | S k => String "0" (zeros k)
  end.

(** [strconv.Itoa]: decimal digits, with a leading minus sign below zero. *)
Definition itoa (z : Z) : string := NilZero.string_of_int (Z.to_int z).

(** Decimal digits of a non-negative number, zero-padded on the left to at
    least [wid] characters (the [itoa] helper of package [log], and the
    fixed-width fields of [time.Format]). *)
Definition itoaw (z : Z) (wid : nat) : string :=
  let d := itoa z in
  zeros (wid - String.length d) ++ d.

(** A Go [int] on a 64-bit platform: two's-complement wrap-around. *)
Definition wrap64 (z : Z) : Z := (z + 2 ^ 63) mod 2 ^ 64 - 2 ^ 63.

Definition minInt64 : Z := - 2 ^ 63.
Definition maxInt64 : Z := 2 ^ 63 - 1.

(** ** The data model of the program *)

(** [LogConfig] (bivalve.go, lines 43-50). *)
Record LogConfig := {
  Output : string;
  Level : string;
  Filename : string;
  DisplayMinimal : bool;
  TerminalOutput : bool
}.

(** ** Package [time] *)

Module GoTime.

(** A wall-clock instant: whole seconds since January 1 of year 1,
    00:00:00 UTC, nanoseconds within the second, and the offset of the
    instant's location in seconds east of UTC.  The zero value
    [time.Time{}] is instant 0 in UTC. *)
Record Time := { sec : Z; nsec : Z; offset : Z }.

Definition zero : Time := {| sec := 0; nsec := 0; offset := 0 |}.

Definition UTC (t : Time) : Time :=
  {| sec := sec t; nsec := nsec t; offset := 0 |}.

(** [time.Duration]: a signed 64-bit count of nanoseconds. *)
Definition Duration := Z.

Definition Second : Z := 1000000000.

(** [t.Sub(u)]: the difference of the two wall-clock readings, saturated
    at the bounds of [Duration]. *)
Definition Sub (t u : Time) : Duration :=
  let d := (sec t - sec u) * Second + (nsec t - nsec u) in
  if d <? minInt64 then minInt64
  else if maxInt64 <? d then maxInt64
  else d.

(** Conversion of a day count since 0001-01-01 into the proleptic
    Gregorian (year, month, day). *)
Definition civil (days : Z) : Z * Z * Z :=
  let z := days + 306 in
  let era := z / 146097 in
  let doe := z mod 146097 in
  let yoe := (doe - doe / 1460 + doe / 36524 - doe / 146096) / 365 in
  let doy := doe - (365 * yoe + yoe / 4 - yoe / 100) in
  let mp := (5 * doy + 2) / 153 in
  let d := doy - (153 * mp + 2) / 5 + 1 in
  let m := if mp <? 10 then mp + 3 else mp - 9 in
  let y := yoe + era * 400 + (if m <=? 2 then 1 else 0) in
  (y, m, d).

(** [t.Date()] and [t.Clock()], in the location of [t]. *)
Definition Date (t : Time) : Z * Z * Z := civil ((sec t + offset t) / 86400).

Definition Clock (t : Time) : Z * Z * Z :=
  let s := (sec t + offset t) mod 86400 in
  (s / 3600, (s mod 3600) / 60, s mod 60).

Definition shortMonth (m : Z) : string :=
  nth (Z.to_nat (m - 1))
      ["Jan"; "Feb"; "Mar"; "Apr"; "May"; "Jun";
       "Jul"; "Aug"; "Sep"; "Oct"; "Nov"; "Dec"] "???".

(** [t.Format(layout)] for layouts made of the reference elements
    [2006], [Jan], [01], [02], [03], [04], [05], [15] and literal text:
    the elements that occur in the layout of the access log. *)
Fixpoint Format (t : Time) (layout : string) : string :=
  let '(y, mo, d) := Date t in
  let '(h, mi, s) := Clock t in
  match layout with
  | EmptyString => EmptyString
  | String "2" (String "0" (String "0" (String "6" rest))) =>
      itoaw y 4 ++ Format t rest
  | String "J" (String "a" (String "n" rest)) =>
      shortMonth mo ++ Format t rest
  | String "0" (String "1" rest) => itoaw mo 2 ++ Format t rest
  | String "0" (String "2" rest) => itoaw d 2 ++ Format t rest
  | String "0" (String "3" rest) =>
      itoaw (if h mod 12 =? 0 then 12 else h mod 12) 2 ++ Format t rest
  | String "0" (String "4" rest) => itoaw mi 2 ++ Format t rest
  | String "0" (String "5" rest) => itoaw s 2 ++ Format t rest
  | String "1" (String "5" rest) => itoaw h 2 ++ Format t rest
  | String c rest => String c (Format t rest)
  end.

(** [d.Seconds()]: [float64(d / Second) + float64(d % Second) / 1e9],
    with Go's truncating division. *)
Definition Z2F (z : Z) : float :=
  if z <? 0 then PrimFloat.opp (PrimFloat.of_uint63 (Uint63.of_Z (- z)))
  else PrimFloat.of_uint63 (Uint63.of_Z z).

Definition Seconds (d : Duration) : float :=
  PrimFloat.add (Z2F (Z.quot d Second))
                (PrimFloat.div (Z2F (Z.rem d Second)) (Z2F Second)).

End GoTime.

(** ** Package [fmt] *)

Module GoFmt.

(** The dynamic values the program hands to [Sprintf] as [interface{}]
    arguments: strings, integers, [float64] numbers, booleans and the
    pointer to a [LogConfig]. *)
Inductive value :=
| VString (s : string)
| VInt (n : Z)
| VFloat64 (x : float)
| VBool (b : bool)
| VLogConfig (c : LogConfig).

Definition fmtBool (b : bool) : string := if b then "true" else "false".

(** The verb [%+v] applied to a [*LogConfig]. *)
Definition fmtLogConfig (c : LogConfig) : string :=
  "&{Output:" ++ Output c ++ " Level:" ++ Level c ++
  " Filename:" ++ Filename c ++
  " DisplayMinimal:" ++ fmtBool (DisplayMinimal c) ++
  " TerminalOutput:" ++ fmtBool (TerminalOutput c) ++ "}".

(** Nearest integer to [num * 2 ^ e], ties to the even neighbour. *)
Definition roundHalfEven (num e : Z) : Z :=
  if 0 <=? e then num * 2 ^ e
  else
    let den := 2 ^ (- e) in
    let q := num / den in
    let r := num mod den in
    if (den <? 2 * r) || ((2 * r =? den) && Z.odd q) then q + 1 else q.

(** The verb [%f] applied to a [float64]: the exact binary value rounded
    to six decimals, as [strconv.FormatFloat(x, 'f', 6, 64)] prints it. *)
Definition fmtFloat (x : float) : string :=
  match Prim2SF x with
  | S754_zero s => (if s then "-" else EmptyString) ++ "0.000000"
  | S754_infinity s => if s then "-Inf" else "+Inf"
  | S754_nan => "NaN"
  | S754_finite s m e =>
      let n := roundHalfEven (Z.pos m * 1000000) e in
      (if s then "-" else EmptyString) ++
      itoa (n / 1000000) ++ "." ++ itoaw (n mod 1000000) 6
  end.

(** Interpolation for the fragment of [fmt] that the program's own format
    strings use: the verbs [%s] on a string, [%d] on an integer, [%f] on a
    [float64], [%+v] on a [*LogConfig] and the escape [%%], with exactly
    as many arguments as verbs.  [None] marks a format or an argument list
    outside that fragment. *)
Fixpoint sprintf (format : string) (a : list value) : option string :=
  match format with
  | EmptyString =>
      match a with
      | [] => Some EmptyString
      | _ :: _ => None
      end
  | String "%" rest =>
      match rest with
      | String "%" rest' => option_map (String "%") (sprintf rest' a)
      | String "s" rest' =>
          match a with
          | VString s :: a' => option_map (append s) (sprintf rest' a')
          | _ => None
          end
      | String "d" rest' =>
          match a with
          | VInt n :: a' => option_map (append (itoa n)) (sprintf rest' a')
          | _ => None
          end
      | String "f" rest' =>
          match a with
          | VFloat64 x :: a' =>
              option_map (append (fmtFloat x)) (sprintf rest' a')
          | _ => None
          end
      | String "+" (String "v" rest') =>
          match a with
          | VLogConfig c :: a' =>
              option_map (append (fmtLogConfig c)) (sprintf rest' a')
          | _ => None
          end
      | _ => None
      end
  | String c rest => option_map (String c) (sprintf rest a)
  end.

Section Sprintf.

(** What [fmt.Sprintf] returns outside the fragment above (other verbs,
    flags, widths, mismatched or surplus arguments) is left to the
    library. *)
Variable fmtOther : string -> list value -> string.

Definition Sprintf (format : string) (a : list value) : string :=
  match sprintf format a with
  | Some s => s
  | None => fmtOther format a
  end.

End Sprintf.

End GoFmt.

(** ** Package [os]: the process environment *)

Module GoOS.

(** An [*os.File]: one of the two console streams, the nil pointer, or a
    file object created by [OpenFile], named by its index in the table of
    file objects.  Several variables may hold the same [Opened id]: closing
    it through one of them closes it for all. *)
Inductive File :=
| Stdout
| Stderr
| Nil
| Opened (id : nat).

Record FileObj := { name : string; closed : bool }.

(** One [Write] system call: where it went, what was handed over, and
    whether the operating system took it. *)
Inductive event :=
| EvWrite (dst : File) (data : string) (ok : bool).

(** The environment of the process: a wall clock read by [time.Now] (the
    [n]-th reading is [clock n]), a file system that either lets a path be
    opened for appending or refuses with a reason, the file objects
    created so far, and the history of writes. *)
Record World := {
  clock : nat -> GoTime.Time;
  ticks : nat;
  fs : string -> option string;
  files : list FileObj;
  trace : list event
}.

Definition Now (w : World) : GoTime.Time * World :=
  (clock w (ticks w),
   {| clock := clock w; ticks := S (ticks w); fs := fs w;
      files := files w; trace := trace w |}).

(** [os.OpenFile(name, O_APPEND|O_CREATE|O_WRONLY, 0644)]: a fresh file
    object, or the nil file together with the text of the [*PathError]. *)
Definition OpenFile (path : string) (w : World) : File * option string * World :=
  match fs w path with
  | Some reason => (Nil, Some ("open " ++ path ++ ": " ++ reason), w)
  | None =>
      (Opened (List.length (files w)), None,
       {| clock := clock w; ticks := ticks w; fs := fs w;
          files := files w ++ [{| name := path; closed := false |}];
          trace := trace w |})
  end.

Definition writable (f : File) (w : World) : bool :=
  match f with
  | Stdout | Stderr => true
  | Nil => false
  | Opened id =>
      match nth_error (files w) id with
      | Some o => negb (closed o)
      | None => false
      end
  end.

(** [f.Write(b)]: fails on the nil file and on a closed file.  The callers
    in this program drop the returned error. *)
Definition Write (f : File) (b : string) (w : World) : World :=
  {| clock := clock w; ticks := ticks w; fs := fs w; files := files w;
     trace := trace w ++ [EvWrite f b (writable f w)] |}.

Fixpoint closeAt (id : nat) (l : list FileObj) : list FileObj :=
  match l, id with
  | [], _ => []
  | o :: l', O => {| name := name o; closed := true |} :: l'
  | o :: l', S k => o :: closeAt k l'
  end.

(** [f.Close()] on what [OpenFile] returned: an error and no effect on the
    nil file, otherwise the file object is closed. *)
Definition Close (f : File) (w : World) : World :=
  match f with
  | Opened id =>
      {| clock := clock w; ticks := ticks w; fs := fs w;
         files := closeAt id (files w); trace := trace w |}
  | _ => w
  end.

Definition File_eqb (f g : File) : bool :=
  match f, g with
  | Stdout, Stdout | Stderr, Stderr | Nil, Nil => true
  | Opened i, Opened j => Nat.eqb i j
  | _, _ => false
  end.

(** What has reached a destination so far: the data of its successful
    writes, oldest first. *)
Fixpoint received (f : File) (tr : list event) : list string :=
  match tr with
  | [] => []
  | EvWrite dst data ok :: tr' =>
      if ok && File_eqb dst f then data :: received f tr'
      else received f tr'
  end.

(** The successful writes of a history, whatever their destination. *)
Definition delivered (tr : list event) : list event :=
  filter (fun e => match e with EvWrite _ _ ok => ok end) tr.

End GoOS.

(** ** Package [log] *)

Module GoLog.

Import GoOS.

Definition Ldate : Z := 1.
Definition Ltime : Z := 2.
Definition Lmicroseconds : Z := 4.
Definition Llongfile : Z := 8.
Definition Lshortfile : Z := 16.
Definition LUTC : Z := 32.
Definition Lmsgprefix : Z := 64.
Definition LstdFlags : Z := Z.lor Ldate Ltime.

Record Logger := { out : File; prefix : string; flag : Z }.

Definition New (o : File) (p : string) (fl : Z) : Logger :=
  {| out := o; prefix := p; flag := fl |}.

Definition has (fl bits : Z) : bool := negb (Z.land fl bits =? 0).

(** The text after the last slash of [s], if [s] has a slash. *)
Fixpoint afterLastSlash (s : string) : option string :=
  match s with
  | EmptyString => None
  | String c r =>
      match afterLastSlash r with
      | Some t => Some t
      | None => if Ascii.eqb c "/" then Some r else None
      end
  end.

(** The [Lshortfile] trimming: the final path element; a slash in the
    first position is not looked at. *)
Definition shortFile (file : string) : string :=
  match file with
  | EmptyString => EmptyString
  | String _ r =>
      match afterLastSlash r with
      | Some t => t
      | None => file
      end
  end.

(** [l.formatHeader(buf, t, file, line)]. *)
Definition formatHeader (l : Logger) (t : GoTime.Time) (file : string)
    (line : Z) : string :=
  let fl := flag l in
  (if has fl Lmsgprefix then EmptyString else prefix l) ++
  (if has fl (Z.lor Ldate (Z.lor Ltime Lmicroseconds)) then
     let t := if has fl LUTC then GoTime.UTC t else t in
     (if has fl Ldate then
        let '(y, mo, d) := GoTime.Date t in
        itoaw y 4 ++ "/" ++ itoaw mo 2 ++ "/" ++ itoaw d 2 ++ " "
      else EmptyString) ++
     (if has fl (Z.lor Ltime Lmicroseconds) then
        let '(h, mi, s) := GoTime.Clock t in
        itoaw h 2 ++ ":" ++ itoaw mi 2 ++ ":" ++ itoaw s 2 ++
        (if has fl Lmicroseconds
         then "." ++ itoaw (GoTime.nsec t / 1000) 6
         else EmptyString) ++ " "
      else EmptyString)
   else EmptyString) ++
  (if has fl (Z.lor Lshortfile Llongfile) then
     (if has fl Lshortfile then shortFile file else file) ++
     ":" ++ itoa line ++ ": "
   else EmptyString) ++
  (if has fl Lmsgprefix then prefix l else EmptyString).

(** The line feed [Output] appends when the text does not end with one. *)
Definition terminate (s : string) : string :=
  if endsWithNewline s then s else s ++ nl.

(** The file and line of the header: looked up only when a file flag is
    set; [caller] is what [runtime.Caller(calldepth)] resolves to at the
    point of the call, or [None] when the runtime cannot tell. *)
Definition located (l : Logger) (caller : option (string * Z)) : string * Z :=
  if has (flag l) (Z.lor Lshortfile Llongfile) then
    match caller with
    | Some fl => fl
    | None => ("???", 0)
    end
  else (EmptyString, 0).

(** [l.Output(calldepth, s)].  This program always passes
    [calldepth = 2], the caller of the function that calls [Output].
    The error of the write is returned to callers that all ignore it. *)
Definition Output (l : Logger) (caller : option (string * Z)) (s : string)
    (w : World) : World :=
  let '(now, w) := Now w in
  let '(file, line) := located l caller in
  Write (out l) (formatHeader l now file line ++ terminate s) w.

(** The standard logger of package [log], and [log.Println] of an error
    whose text is [msg]. *)
Definition std : Logger := New Stderr EmptyString LstdFlags.

Definition Println (msg : string) (w : World) : World :=
  Output std None (msg ++ nl) w.

End GoLog.

(** ** Package [net/http]: what the middleware sees of it *)

Module GoHTTP.

(** The fields of [*http.Request] that the middleware reads. *)
Record Request := {
  RemoteAddr : string;
  Method : string;
  RequestURI : string;
  Proto : string
}.

(** The interface [http.ResponseWriter], over the state [R] of whatever
    implements it: [WriteHeader(code)], and [Write(b)] returning the
    number of bytes taken and an optional error. *)
Class ResponseWriter (R : Type) := {
  rwWriteHeader : Z -> R -> R;
  rwWrite : list Byte.byte -> R -> R * (Z * option string)
}.

(** A handler, seen from the response writer it is given: it returns,
    panics, or calls one of the two methods and goes on, after a [Write]
    depending on what the call returned.  A panic raised below the
    handler, by the writer, is a handler that ends in [Panics]. *)
Inductive Handler :=
| Done
| Panics
| CallWriteHeader (code : Z) (k : Handler)
| CallWrite (b : list Byte.byte) (k : Z -> option string -> Handler).

(** A writer that takes every byte and keeps nothing. *)
Definition discard : ResponseWriter unit :=
  {| rwWriteHeader := fun _ r => r;
     rwWrite := fun b r => (r, (Z.of_nat (List.length b), None)) |}.

End GoHTTP.

(** ** The program: bivalve.go *)

Import GoOS GoFmt GoHTTP.

(** The package-level variables (lines 35-39).  Package initialisation runs
    [Configure] before any other code can call the package, so [valvelog]
    is never observed unset. *)
Record Globals := {
  valvelog : GoLog.Logger;
  level : Z;
  terminalOutput : bool
}.

(** Constants (lines 52-66). *)
Definition ApacheFormatPattern : string :=
  "%s - - [%s] " ++ dquote ++ "%s %d %d" ++ dquote ++ " %f" ++ nl.
Definition debugLevel : Z := 4.
Definition infoLevel : Z := 2.
Definition errorLevel : Z := 1.
Definition ErrorColor : string := esc ++ "[1;31m%s" ++ esc ++ "[0m".
Definition DebugColor : string := esc ++ "[0;36m%s" ++ esc ++ "[0m".

(** [statusWriter] (lines 72-76): the wrapped writer, the status and the
    number of body bytes written. *)
Record statusWriter (R : Type) := {
  sw_ResponseWriter : R;
  sw_status : Z;
  sw_length : Z
}.
Arguments sw_ResponseWriter {R} _.
Arguments sw_status {R} _.
Arguments sw_length {R} _.

(** [webLoggingHandler] (lines 68-70). *)
Record webLoggingHandler := { handler : Request -> Handler }.

(** The record assembled by [ServeHTTP] (lines 216-223). *)
Record ApacheLogRecord := {
  ip : string;
  time : GoTime.Time;
  method : string;
  uri : string;
  protocol : string;
  status : Z;
  responseBytes : Z;
  elapsedTime : GoTime.Duration
}.

(** The source position a logging call is made from, as the runtime
    resolves it for the file and line of the header. *)
Definition CallSite := option (string * Z).

(** A method call made by a handler on the writer it was given. *)
Inductive call :=
| WroteHeader (code : Z)
| Wrote (b : list Byte.byte).

Section Bivalve.

Variable fmtOther : string -> list value -> string.

Local Abbreviation Sprintf := (GoFmt.Sprintf fmtOther).

(** *** The response interceptor (lines 78-90) *)

Section Interceptor.

Context {R : Type} {RW : ResponseWriter R}.

Definition WriteHeader (code : Z) (w : statusWriter R) : statusWriter R :=
  {| sw_ResponseWriter := rwWriteHeader code (sw_ResponseWriter w);
     sw_status := code;
     sw_length := sw_length w |}.

Definition Write (b : list Byte.byte) (w : statusWriter R)
    : statusWriter R * (Z * option string) :=
  let st := if sw_status w =? 0 then 200 else sw_status w in
  let '(r, (n, err)) := rwWrite b (sw_ResponseWriter w) in
  ({| sw_ResponseWriter := r;
      sw_status := st;
      sw_length := wrap64 (sw_length w + n) |}, (n, err)).

(** Running a handler against the interceptor: the interceptor when the
    handler returns, with the calls the handler made, in order; [None]
    when the handler panics. *)
Fixpoint serve (h : Handler) (w : statusWriter R)
    : option (statusWriter R * list call) :=
  match h with
  | Done => Some (w, [])
  | Panics => None
  | CallWriteHeader code k =>
      match serve k (WriteHeader code w) with
      | Some (w', cs) => Some (w', WroteHeader code :: cs)
      | None => None
      end
  | CallWrite b k =>
      let '(w1, (n, err)) := Write b w in
      match serve (k n err) w1 with
      | Some (w', cs) => Some (w', Wrote b :: cs)
      | None => None
      end
  end.

End Interceptor.

(** *** The emitters (lines 146-198) *)

Definition Info (g : Globals) (site : CallSite) (s : string) (w : World)
    : World :=
  if infoLevel <=? level g then GoLog.Output (valvelog g) site s w else w.

Definition Infof (g : Globals) (site : CallSite) (s : string)
    (args : list value) (w : World) : World :=
  if infoLevel <=? level g
  then GoLog.Output (valvelog g) site (Sprintf s args) w
  else w.

Definition Debug (g : Globals) (site : CallSite) (s : string) (w : World)
    : World :=
  if debugLevel <=? level g then
    let s := if terminalOutput g then Sprintf DebugColor [VString s] else s in
    GoLog.Output (valvelog g) site s w
  else w.

Definition Debugf (g : Globals) (site : CallSite) (s : string)
    (args : list value) (w : World) : World :=
  if debugLevel <=? level g then
    let msg := Sprintf s args in
    let msg :=
      if terminalOutput g then Sprintf DebugColor [VString msg] else msg in
    GoLog.Output (valvelog g) site msg w
  else w.

Definition Error (g : Globals) (site : CallSite) (s : string) (w : World)
    : World :=
  let s := if terminalOutput g then Sprintf ErrorColor [VString s] else s in
  GoLog.Output (valvelog g) site s w.

Definition Errorf (g : Globals) (site : CallSite) (s : string)
    (args : list value) (w : World) : World :=
  let msg := Sprintf s args in
  let msg :=
    if terminalOutput g then Sprintf ErrorColor [VString msg] else msg in
  GoLog.Output (valvelog g) site msg w.

(** *** [Configure] (lines 104-144) *)

(** The three package variables are all assigned, so the globals on entry
    play no part; they are taken so that calls chain. *)
Definition Configure (conf : LogConfig) (g : Globals) (w : World)
    : Globals * World :=
  let writer := Stderr in
  let '(writer, deferred, w) :=
    if String.eqb (Output conf) "file" then
      let '(f, err, w) := OpenFile (Filename conf) w in
      let w :=
        match err with
        | Some e => GoLog.Println e w
        | None => w
        end in
      (f, Some f, w)
    else if String.eqb (Output conf) "stdout" then (Stdout, None, w)
    else (writer, None, w) in
  let lvl :=
    if String.eqb (Level conf) "debug" then debugLevel
    else if String.eqb (Level conf) "error" then errorLevel
    else infoLevel in
  let term := if TerminalOutput conf then true else false in
  let logflags :=
    Z.lor GoLog.Ldate (Z.lor GoLog.Ltime (Z.lor GoLog.Lmicroseconds
      (Z.lor GoLog.LUTC GoLog.Lshortfile))) in
  let logflags := if DisplayMinimal conf then 0 else logflags in
  let g' :=
    {| valvelog := GoLog.New writer EmptyString logflags;
       level := lvl;
       terminalOutput := term |} in
  let w :=
    Debugf g' (Some ("bivalve.go", 143)) "Log Config set to : %+v"
           [VLogConfig conf] w in
  let w :=
    match deferred with
    | Some f => Close f w
    | None => w
    end in
  (g', w).

(** *** The access-log middleware (lines 200-240) *)

Definition RequestLogHandler (h : Request -> Handler) : webLoggingHandler :=
  {| handler := h |}.

(** The record and the line of one served request: what [ServeHTTP]
    computes between the return of the wrapped handler and the call of
    [Infof]. *)
Definition accessRecord {R : Type} (r : Request) (sw : statusWriter R)
    (start endingTime : GoTime.Time) : ApacheLogRecord :=
  {| ip := RemoteAddr r;
     time := GoTime.zero;
     method := Method r;
     uri := RequestURI r;
     protocol := Proto r;
     status := sw_status sw;
     elapsedTime := GoTime.Sub endingTime start;
     responseBytes := sw_length sw |}.

Definition accessArgs (record : ApacheLogRecord) : list value :=
  let timeFormatted := GoTime.Format (time record) "02/Jan/2006 03:04:05" in
  let requestLine :=
    Sprintf "%s %s %s"
      [VString (method record); VString (uri record);
       VString (protocol record)] in
  [VString (ip record); VString timeFormatted; VString requestLine;
   VInt (status record); VInt (responseBytes record);
   VFloat64 (GoTime.Seconds (elapsedTime record))].

(** [ServeHTTP]: the state of the wrapped writer and the world after the
    request, or [None] when the wrapped handler panics, in which case
    nothing is logged. *)
Definition ServeHTTP {R : Type} {RW : ResponseWriter R}
    (h : webLoggingHandler) (rw : R) (r : Request) (g : Globals)
    (w : World) : option (R * World) :=
  let '(start, w) := Now w in
  let sw := {| sw_ResponseWriter := rw; sw_status := 0; sw_length := 0 |} in
  match serve (handler h r) sw with
  | None => None
  | Some (sw, _) =>
      let '(now, w) := Now w in
      let endingTime := GoTime.UTC now in
      let record := accessRecord r sw start endingTime in
      Some (sw_ResponseWriter sw,
            Infof g (Some ("bivalve.go", 237)) ApacheFormatPattern
                  (accessArgs record) w)
  end.

(** *** Vocabulary of the properties *)

(** A call of one of the six emitters. *)
Inductive emission :=
| EInfo (s : string)
| EInfof (s : string) (args : list value)
| EDebug (s : string)
| EDebugf (s : string) (args : list value)
| EError (s : string)
| EErrorf (s : string) (args : list value).

Definition emit (e : emission) (g : Globals) (site : CallSite) (w : World)
    : World :=
  match e with
  | EInfo s => Info g site s w
  | EInfof s args => Infof g site s args w
  | EDebug s => Debug g site s w
  | EDebugf s args => Debugf g site s args w
  | EError s => Error g site s w
  | EErrorf s args => Errorf g site s args w
  end.

(** A sequence of emitter calls, each from its own call site. *)
Fixpoint emitAll (es : list (emission * CallSite)) (g : Globals) (w : World)
    : World :=
  match es with
  | [] => w
  | (e, site) :: es' => emitAll es' g (emit e g site w)
  end.

(** The message of a call: the string given, or its interpolation. *)
Definition message (e : emission) : string :=
  match e with
  | EInfo s | EDebug s | EError s => s
  | EInfof s args | EDebugf s args | EErrorf s args => Sprintf s args
  end.

(** The text an emitter hands to the logger: the message, between the
    colour escape sequences for the debug and error emitters when
    [terminalOutput] is set. *)
Definition text (e : emission) (g : Globals) : string :=
  let m := message e in
  if terminalOutput g then
    match e with
    | EInfo _ | EInfof _ _ => m
    | EDebug _ | EDebugf _ _ => esc ++ "[0;36m" ++ m ++ esc ++ "[0m"
    | EError _ | EErrorf _ _ => esc ++ "[1;31m" ++ m ++ esc ++ "[0m"
    end
  else m.

(** The numeric level a call is tagged with; the error emitters carry no
    test against it. *)
Definition threshold (e : emission) : option Z :=
  match e with
  | EInfo _ | EInfof _ _ => Some infoLevel
  | EDebug _ | EDebugf _ _ => Some debugLevel
  | EError _ | EErrorf _ _ => None
  end.

Definition passes (e : emission) (g : Globals) : bool :=
  match threshold e with
  | Some t => t <=? level g
  | None => true
  end.

(** A call emitted: exactly one write was issued, on the logger's sink. *)
Definition emits (g : Globals) (w w' : World) : Prop :=
  exists data ok,
    trace w' = (trace w ++ [EvWrite (GoLog.out (valvelog g)) data ok])%list.

(** The same world with another clock. *)
Definition withClock (c : nat -> GoTime.Time) (n : nat) (w : World) : World :=
  {| clock := c; ticks := n; fs := fs w; files := files w;
     trace := trace w |}.

(** The status the interceptor holds after a sequence of calls, starting
    from status [st]. *)
Fixpoint statusAfter (st : Z) (cs : list call) : Z :=
  match cs with
  | [] => st
  | WroteHeader code :: cs' => statusAfter code cs'
  | Wrote _ :: cs' => statusAfter (if st =? 0 then 200 else st) cs'
  end.

Definition noCalls (cs : list call) : bool :=
  match cs with
  | [] => true
  | _ :: _ => false
  end.

Definition isWrote (c : call) : bool :=
  match c with
  | Wrote _ => true
  | WroteHeader _ => false
  end.

(** The interceptor [ServeHTTP] starts a request with. *)
Definition fresh {R : Type} (rw : R) : statusWriter R :=
  {| sw_ResponseWriter := rw; sw_status := 0; sw_length := 0 |}.

(** The access-log line, written out: the pattern
    [%s - - [%s] "%s %d %d" %f\n] with its six substitutions. *)
Definition accessLine (addr stamp requestLine : string) (code bytes : Z)
    (seconds : float) : string :=
  addr ++ " - - [" ++ stamp ++ "] " ++ dquote ++ requestLine ++ " " ++
  itoa code ++ " " ++ itoa bytes ++ dquote ++ " " ++ fmtFloat seconds ++ nl.

(** The header the logger of [g] puts before a line emitted from [site]
    at time [t]. *)
Definition header (g : Globals) (site : CallSite) (t : GoTime.Time) : string :=
  GoLog.formatHeader (valvelog g) t
    (fst (GoLog.located (valvelog g) site))
    (snd (GoLog.located (valvelog g) site)).

(** The threshold and the header flags a configuration asks for. *)
Definition levelOf (conf : LogConfig) : Z :=
  if String.eqb (Level conf) "debug" then debugLevel
  else if String.eqb (Level conf) "error" then errorLevel
  else infoLevel.

Definition flagsOf (conf : LogConfig) : Z :=
  if DisplayMinimal conf then 0 else 55.

(** Two settings of the package variables that gate, colour and head a
    line alike. *)
Definition sameGate (g1 g2 : Globals) : Prop :=
  level g1 = level g2 /\
  terminalOutput g1 = terminalOutput g2 /\
  GoLog.flag (valvelog g1) = GoLog.flag (valvelog g2) /\
  GoLog.prefix (valvelog g1) = GoLog.prefix (valvelog g2).

(** Two sinks that take a write alike: both refuse it, or both are the
    same destination and accept it. *)
Definition sameSink (g1 : Globals) (w1 : World) (g2 : Globals) (w2 : World)
    : Prop :=
  writable (GoLog.out (valvelog g1)) w1 = writable (GoLog.out (valvelog g2)) w2 /\
  (writable (GoLog.out (valvelog g1)) w1 = true ->
   GoLog.out (valvelog g1) = GoLog.out (valvelog g2)).

(** *** Example data *)

(** A stand-in for the library outside the interpolation fragment. *)
Definition exampleFmt : string -> list value -> string :=
  fun _ _ => EmptyString.

(** A clock that starts on 2009-11-10 at 23:00:00 UTC and advances by one
    second and a half per reading. *)
Definition exampleClock (n : nat) : GoTime.Time :=
  {| GoTime.sec := 63393490800 + Z.of_nat n + Z.of_nat n / 2;
     GoTime.nsec := if Nat.even n then 0 else 500000000;
     GoTime.offset := 0 |}.

(** A world with no file object and no write yet, in which the path
    [/nonexistent/bivalve.log] cannot be opened. *)
Definition exampleWorld : World :=
  {| clock := exampleClock;
     ticks := 0;
     fs := fun path =>
             if String.eqb path "/nonexistent/bivalve.log"
             then Some "no such file or directory"
             else None;
     files := [];
     trace := [] |}.

(** The package variables as package initialisation leaves them when no
    environment variable is set: standard output, info, full header. *)
Definition initial : Globals :=
  {| valvelog := GoLog.New Stdout EmptyString 55;
     level := infoLevel;
     terminalOutput := false |}.

Definition stdoutErrorMinimal : LogConfig :=
  {| Output := "stdout"; Level := "error"; Filename := "bivalve.log";
     DisplayMinimal := true; TerminalOutput := false |}.

Definition stdoutInfoMinimal : LogConfig :=
  {| Output := "stdout"; Level := "info"; Filename := "bivalve.log";
     DisplayMinimal := true; TerminalOutput := false |}.

Definition stdoutInfoMinimalColour : LogConfig :=
  {| Output := "stdout"; Level := "info"; Filename := "bivalve.log";
     DisplayMinimal := true; TerminalOutput := true |}.

Definition unopenableFile : LogConfig :=
  {| Output := "file"; Level := "info";
     Filename := "/nonexistent/bivalve.log";
     DisplayMinimal := true; TerminalOutput := false |}.

Definition unknownNames : LogConfig :=
  {| Output := "syslog"; Level := "verbose"; Filename := "bivalve.log";
     DisplayMinimal := false; TerminalOutput := false |}.

Definition getFoo : Request :=
  {| RemoteAddr := "127.0.0.1:5000"; Method := "GET";
     RequestURI := "/foo"; Proto := "HTTP/1.1" |}.

(** Handlers: one writes "hello" and returns, one sets 404 and writes, one
    sets 404 and then 500, one returns at once. *)
Definition helloHandler : webLoggingHandler :=
  RequestLogHandler
    (fun _ => CallWrite (list_byte_of_string "hello") (fun _ _ => Done)).

Definition notFoundHandler : webLoggingHandler :=
  RequestLogHandler
    (fun _ =>
       CallWriteHeader 404
         (CallWrite (list_byte_of_string "not found") (fun _ _ => Done))).

Definition twoStatusHandler : webLoggingHandler :=
  RequestLogHandler
    (fun _ => CallWriteHeader 404 (CallWriteHeader 500 Done)).


(** A handler that sets the status 0 and then writes one byte. *)
Definition zeroStatusHandler : webLoggingHandler :=
  RequestLogHandler
    (fun _ =>
       CallWriteHeader 0
         (CallWrite (list_byte_of_string "x") (fun _ _ => Done))).

(** *** The rest of the file: initialisation and the call-site header *)

(** The names of the flags and of the environment variables (lines
    53-56). *)
Definition configOutputKey : string := "BIVALVE_OUTPUT".
Definition configLevelKey : string := "BIVALVE_LEVEL".
Definition configFilenameKey : string := "BIVALVE_FILENAME".
Definition configDisplayMinimalKey : string := "BIVALVE_DISPLAY_MINIMAL".

(** [getEnvConfigValueOr] (lines 243-251).  [env] is [os.Getenv], which
    gives the empty string for a variable that is not set; the result is an
    [interface{}] holding either that string or the default. *)
Definition getEnvConfigValueOr (env : string -> string) (envKey : string)
    (defaultValue : value) : value :=
  let e := env envKey in
  if negb (String.eqb e EmptyString) then VString e else defaultValue.

(** The type assertions [.(string)] and [.(bool)]: [None] is the run-time
    panic on a value of another dynamic type. *)
Definition assertString (v : value) : option string :=
  match v with
  | VString s => Some s
  | _ => None
  end.

Definition assertBool (v : value) : option bool :=
  match v with
  | VBool b => Some b
  | _ => None
  end.

(** [flag.String] and [flag.Bool] define a flag and return the address of
    its variable, which holds the default value just given.  [init] reads
    through that address at once, before any command line is parsed: it
    reads the default. *)
Definition flagValue {A : Type} (name : string) (value : A) : A := value.

(** [init] (lines 92-101): [None] when a type assertion panics. *)
Definition init (env : string -> string) (g : Globals) (w : World)
    : option (Globals * World) :=
  match assertString (getEnvConfigValueOr env configOutputKey (VString "stdout")) with
  | None => None
  | Some o =>
  match assertString (getEnvConfigValueOr env configLevelKey (VString "info")) with
  | None => None
  | Some l =>
  match assertString (getEnvConfigValueOr env configFilenameKey (VString "bivalve.log")) with
  | None => None
  | Some f =>
  match assertBool (getEnvConfigValueOr env configDisplayMinimalKey (VBool false)) with
  | None => None
  | Some d =>
      Some (Configure
              {| Output := flagValue configOutputKey o;
                 Level := flagValue configLevelKey l;
                 Filename := flagValue configFilenameKey f;
                 DisplayMinimal := flagValue configDisplayMinimalKey d;
                 TerminalOutput := false |} g w)
  end end end end.

(** The function [header] of the source (lines 253-265), which no other
    function of the file calls: the caller two frames up as "[file:line]",
    the file cut after its last slash.  [caller] is what
    [runtime.Caller(2)] resolves to, [None] when it cannot. *)
Definition callSiteHeader (caller : option (string * Z)) : string :=
  let '(file, line) :=
    match caller with
    | None => ("???", 1)
    | Some (file, line) =>
        (match GoLog.afterLastSlash file with
         | Some short => short
         | None => file
         end, line)
    end in
  Sprintf "[%s:%d]" [VString file; VInt line].

(** A string without a slash. *)
Fixpoint noSlash (s : string) : bool :=
  match s with
  | EmptyString => true
  | String c r => negb (Ascii.eqb c "/") && noSlash r
  end.

(** A variable of the environment that is unset or empty falls back. *)
Definition orDefault (s d : string) : string :=
  if String.eqb s EmptyString then d else s.

(** The same handler, one that calls nothing but [WriteHeader] and [Write],
    run against the wrapped writer itself, without the interceptor in
    between. *)
Fixpoint direct {R : Type} {RW : ResponseWriter R} (h : Handler) (r : R)
    : option R :=
  match h with
  | Done => Some r
  | Panics => None
  | CallWriteHeader code k => direct k (rwWriteHeader code r)
  | CallWrite b k =>
      let '(r', (n, err)) := rwWrite b r in
      direct (k n err) r'
  end.

(** The number of bytes in the buffers of the [Write] calls of a history. *)
Fixpoint bodyBytes (cs : list call) : Z :=
  match cs with
  | [] => 0
  | WroteHeader _ :: cs' => bodyBytes cs'
  | Wrote b :: cs' => Z.of_nat (List.length b) + bodyBytes cs'
  end.

(** The number of calls of a sequence that pass the gate of [g]. *)
Fixpoint passing (es : list (emission * CallSite)) (g : Globals) : nat :=
  match es with
  | [] => O
  | (e, _) :: es' => (if passes e g then 1 else 0) + passing es' g
  end.

(** The console stream a configuration selects when its output is not a
    file. *)
Definition consoleOf (conf : LogConfig) : File :=
  if String.eqb (Output conf) "stdout" then Stdout else Stderr.

(** An environment with no variable set, and two with one variable set. *)
Definition noEnv : string -> string := fun _ => EmptyString.

Definition envLevelDebug : string -> string :=
  fun key => if String.eqb key "BIVALVE_LEVEL" then "debug" else EmptyString.

Definition envDisplayMinimal : string -> string :=
  fun key =>
    if String.eqb key "BIVALVE_DISPLAY_MINIMAL" then "true" else EmptyString.

Definition fileDebug : LogConfig :=
  {| Output := "file"; Level := "debug"; Filename := "bivalve.log";
     DisplayMinimal := true; TerminalOutput := false |}.

Definition stderrDebugColour : LogConfig :=
  {| Output := "stderr"; Level := "debug"; Filename := "bivalve.log";
     DisplayMinimal := true; TerminalOutput := true |}.

Definition stdoutInfoFull : LogConfig :=
  {| Output := "stdout"; Level := "info"; Filename := "bivalve.log";
     DisplayMinimal := false; TerminalOutput := false |}.

(** The line with which [Configure] echoes the configuration at the debug
    level, before the line feed: in cyan when [TerminalOutput] is set. *)
Definition echoText (conf : LogConfig) : string :=
  let msg := "Log Config set to : " ++ fmtLogConfig conf in
  if TerminalOutput conf then esc ++ "[0;36m" ++ msg ++ esc ++ "[0m" else msg.

(** Date, time and microseconds of an instant, read in UTC, as the full
    header prints them. *)
Definition utcStamp (t : GoTime.Time) : string :=
  let u := GoTime.UTC t in
  let '(y, mo, d) := GoTime.Date u in
  let '(h, mi, s) := GoTime.Clock u in
  itoaw y 4 ++ "/" ++ itoaw mo 2 ++ "/" ++ itoaw d 2 ++ " " ++
  itoaw h 2 ++ ":" ++ itoaw mi 2 ++ ":" ++ itoaw s 2 ++ "." ++
  itoaw (GoTime.nsec t / 1000) 6 ++ " ".

(** ** Properties *)

(** *** Text and the logger *)

Lemma append_empty_r (s : string) : s ++ EmptyString = s.
Proof. induction s as [|c s IH]; simpl; [reflexivity | now rewrite IH]. Qed.

Lemma endsWithNewline_app_nl (s : string) : endsWithNewline (s ++ nl) = true.
Proof.
  induction s as [|c s IH]; [reflexivity|].
  simpl. destruct (s ++ nl) eqn:E.
  - destruct s; discriminate.
  - exact IH.
Qed.

Lemma terminate_app_nl (s : string) : GoLog.terminate (s ++ nl) = s ++ nl.
Proof. unfold GoLog.terminate. now rewrite endsWithNewline_app_nl. Qed.

Lemma append_assoc (a b c : string) : (a ++ b) ++ c = a ++ b ++ c.
Proof. induction a as [|x a IH]; simpl; [reflexivity | now rewrite IH]. Qed.

Lemma formatHeader_bare (l : GoLog.Logger) t file line :
  GoLog.flag l = 0 -> GoLog.prefix l = EmptyString ->
  GoLog.formatHeader l t file line = EmptyString.
Proof.
  intros Hf Hp. unfold GoLog.formatHeader. rewrite Hf, Hp. reflexivity.
Qed.

Lemma Output_trace l site s w :
  trace (GoLog.Output l site s w) =
  (trace w ++
   [EvWrite (GoLog.out l)
      (GoLog.formatHeader l (clock w (ticks w))
         (fst (GoLog.located l site)) (snd (GoLog.located l site)) ++
       GoLog.terminate s)
      (writable (GoLog.out l) w)])%list.
Proof.
  unfold GoLog.Output, Now. destruct (GoLog.located l site) as [file line].
  reflexivity.
Qed.

Lemma Output_files l site s w : files (GoLog.Output l site s w) = files w.
Proof.
  unfold GoLog.Output, Now. destruct (GoLog.located l site). reflexivity.
Qed.

Lemma Output_fs l site s w : fs (GoLog.Output l site s w) = fs w.
Proof.
  unfold GoLog.Output, Now. destruct (GoLog.located l site). reflexivity.
Qed.

Lemma Output_clock l site s w : clock (GoLog.Output l site s w) = clock w.
Proof.
  unfold GoLog.Output, Now. destruct (GoLog.located l site). reflexivity.
Qed.

Lemma Output_ticks l site s w : ticks (GoLog.Output l site s w) = S (ticks w).
Proof.
  unfold GoLog.Output, Now. destruct (GoLog.located l site). reflexivity.
Qed.

(** *** Interpolation of the program's own format strings *)

Lemma Sprintf_DebugColor (s : string) :
  Sprintf DebugColor [VString s] = esc ++ "[0;36m" ++ s ++ esc ++ "[0m".
Proof. reflexivity. Qed.

Lemma Sprintf_ErrorColor (s : string) :
  Sprintf ErrorColor [VString s] = esc ++ "[1;31m" ++ s ++ esc ++ "[0m".
Proof. reflexivity. Qed.

Lemma Sprintf_requestLine (m u p : string) :
  Sprintf "%s %s %s" [VString m; VString u; VString p] =
  m ++ " " ++ u ++ " " ++ p.
Proof.
  unfold GoFmt.Sprintf. simpl. now rewrite append_empty_r.
Qed.

Lemma Sprintf_ApacheFormatPattern (addr stamp requestLine : string)
    (code bytes : Z) (seconds : float) :
  Sprintf ApacheFormatPattern
    [VString addr; VString stamp; VString requestLine; VInt code;
     VInt bytes; VFloat64 seconds] =
  accessLine addr stamp requestLine code bytes seconds.
Proof. reflexivity. Qed.

Lemma terminate_accessLine addr stamp requestLine code bytes seconds :
  GoLog.terminate (accessLine addr stamp requestLine code bytes seconds) =
  accessLine addr stamp requestLine code bytes seconds.
Proof.
  unfold accessLine. rewrite <- !append_assoc. apply terminate_app_nl.
Qed.

(** *** The emitters, as one write or none *)

Lemma emit_text (e : emission) (g : Globals) (site : CallSite) (w : World) :
  emit e g site w =
  if passes e g then GoLog.Output (valvelog g) site (text e g) w else w.
Proof.
  destruct e; unfold emit, Info, Infof, Debug, Debugf, Error, Errorf,
    passes, text, message; simpl;
    try rewrite Sprintf_DebugColor; try rewrite Sprintf_ErrorColor;
    destruct (terminalOutput g); reflexivity.
Qed.

Lemma emit_trace (e : emission) (g : Globals) (site : CallSite) (w : World) :
  trace (emit e g site w) =
  (trace w ++
   if passes e g then
     [EvWrite (GoLog.out (valvelog g))
        (header g site (clock w (ticks w)) ++ GoLog.terminate (text e g))
        (writable (GoLog.out (valvelog g)) w)]
   else [])%list.
Proof.
  rewrite emit_text. destruct (passes e g).
  - apply Output_trace.
  - now rewrite app_nil_r.
Qed.

Lemma emits_iff (e : emission) (g : Globals) (site : CallSite) (w : World) :
  emits g w (emit e g site w) <-> passes e g = true.
Proof.
  unfold emits. rewrite emit_trace. split.
  - intros (data & ok & H). destruct (passes e g); [reflexivity|].
    rewrite app_nil_r in H.
    apply (f_equal (@List.length event)) in H.
    rewrite length_app in H. simpl in H. lia.
  - intros ->. eauto.
Qed.

(** C1: whatever the threshold, in particular for each of the configured
    thresholds error = 1, info = 2 and debug = 4, and whatever the message,
    [Debug] and [Debugf] emit exactly when the threshold is at least 4,
    [Info] and [Infof] emit exactly when it is at least 2, and [Error] and
    [Errorf] emit always; a call that does not emit leaves the world as it
    was. *)
Theorem level_gate (g : Globals) (site : CallSite) (s : string)
    (args : list value) (w : World) :
  (emits g w (Debug g site s w) <-> 4 <= level g) /\
  (emits g w (Debugf g site s args w) <-> 4 <= level g) /\
  (emits g w (Info g site s w) <-> 2 <= level g) /\
  (emits g w (Infof g site s args w) <-> 2 <= level g) /\
  emits g w (Error g site s w) /\
  emits g w (Errorf g site s args w) /\
  (level g < 4 -> Debug g site s w = w /\ Debugf g site s args w = w) /\
  (level g < 2 -> Info g site s w = w /\ Infof g site s args w = w).
Proof.
  pose proof (emits_iff (EDebug s) g site w) as HD.
  pose proof (emits_iff (EDebugf s args) g site w) as HDf.
  pose proof (emits_iff (EInfo s) g site w) as HI.
  pose proof (emits_iff (EInfof s args) g site w) as HIf.
  pose proof (emits_iff (EError s) g site w) as HE.
  pose proof (emits_iff (EErrorf s args) g site w) as HEf.
  unfold passes in *. simpl in *.
  unfold debugLevel, infoLevel in *.
  rewrite Z.leb_le in HD, HDf, HI, HIf.
  split; [exact HD|]. split; [exact HDf|]. split; [exact HI|].
  split; [exact HIf|]. split; [now apply HE|]. split; [now apply HEf|].
  split; intros Hlt; split.
  - unfold Debug, debugLevel.
    destruct (Z.leb_spec 4 (level g)); [lia | reflexivity].
  - unfold Debugf, debugLevel.
    destruct (Z.leb_spec 4 (level g)); [lia | reflexivity].
  - unfold Info, infoLevel.
    destruct (Z.leb_spec 2 (level g)); [lia | reflexivity].
  - unfold Infof, infoLevel.
    destruct (Z.leb_spec 2 (level g)); [lia | reflexivity].
Qed.

(** *** What [Configure] leaves in the package variables *)

Lemma Configure_level conf g w :
  level (fst (Configure conf g w)) = levelOf conf.
Proof.
  unfold Configure.
  destruct (String.eqb (Output conf) "file");
    [destruct (OpenFile (Filename conf) w) as [[f err] w1]
    | destruct (String.eqb (Output conf) "stdout")];
    reflexivity.
Qed.

Lemma Configure_terminalOutput conf g w :
  terminalOutput (fst (Configure conf g w)) = TerminalOutput conf.
Proof.
  unfold Configure.
  destruct (String.eqb (Output conf) "file");
    [destruct (OpenFile (Filename conf) w) as [[f err] w1]
    | destruct (String.eqb (Output conf) "stdout")];
    simpl; destruct (TerminalOutput conf); reflexivity.
Qed.

Lemma Configure_flag conf g w :
  GoLog.flag (valvelog (fst (Configure conf g w))) = flagsOf conf.
Proof.
  unfold Configure, flagsOf.
  destruct (String.eqb (Output conf) "file");
    [destruct (OpenFile (Filename conf) w) as [[f err] w1]
    | destruct (String.eqb (Output conf) "stdout")];
    simpl; destruct (DisplayMinimal conf); reflexivity.
Qed.

Lemma Configure_prefix conf g w :
  GoLog.prefix (valvelog (fst (Configure conf g w))) = EmptyString.
Proof.
  unfold Configure.
  destruct (String.eqb (Output conf) "file");
    [destruct (OpenFile (Filename conf) w) as [[f err] w1]
    | destruct (String.eqb (Output conf) "stdout")];
    reflexivity.
Qed.

Lemma Configure_out_console conf g w :
  Output conf <> "file" ->
  GoLog.out (valvelog (fst (Configure conf g w))) =
  if String.eqb (Output conf) "stdout" then Stdout else Stderr.
Proof.
  intros H. apply String.eqb_neq in H. unfold Configure. rewrite H.
  destruct (String.eqb (Output conf) "stdout"); reflexivity.
Qed.

Lemma Configure_console_world conf g w :
  Output conf <> "file" ->
  snd (Configure conf g w) =
  Debugf (fst (Configure conf g w)) (Some ("bivalve.go", 143))
    "Log Config set to : %+v" [VLogConfig conf] w.
Proof.
  intros H. apply String.eqb_neq in H. unfold Configure. rewrite H.
  destruct (String.eqb (Output conf) "stdout"); reflexivity.
Qed.

(** C7: [Configure] is a total function with no error result, whatever
    the strings in the configuration.  An output other than "file" and
    "stdout" selects standard error; a level other than "debug" and
    "error" selects the info threshold; and when the output is not "file"
    and the level is not "debug", the call writes nothing at all, so no
    complaint about the values is reported anywhere. *)
Theorem Configure_fallbacks (conf : LogConfig) (g : Globals) (w : World) :
  (Output conf <> "file" -> Output conf <> "stdout" ->
   GoLog.out (valvelog (fst (Configure conf g w))) = Stderr) /\
  (Level conf <> "debug" -> Level conf <> "error" ->
   level (fst (Configure conf g w)) = infoLevel) /\
  (Output conf <> "file" -> Level conf <> "debug" ->
   snd (Configure conf g w) = w).
Proof.
  split; [|split].
  - intros Hf Hs. rewrite Configure_out_console by assumption.
    apply String.eqb_neq in Hs. now rewrite Hs.
  - intros Hd He. rewrite Configure_level. unfold levelOf.
    apply String.eqb_neq in Hd, He. now rewrite Hd, He.
  - intros Hf Hd. rewrite Configure_console_world by assumption.
    unfold Debugf. rewrite Configure_level. unfold levelOf.
    apply String.eqb_neq in Hd. rewrite Hd.
    destruct (String.eqb (Level conf) "error"); reflexivity.
Qed.

(** C8, amended: after [Configure] with [DisplayMinimal = true] a line is
    written without any header.  What an emitter that passes the gate
    writes is exactly the text it hands to the logger, that is the
    message, put between the colour escape sequences by the debug and
    error emitters when [TerminalOutput] is set, followed by a line feed
    unless that text already ends with one. *)
Theorem minimal_output (conf : LogConfig) (g0 : Globals) (w0 : World)
    (e : emission) (site : CallSite) (w : World) :
  DisplayMinimal conf = true ->
  let g := fst (Configure conf g0 w0) in
  trace (emit e g site w) =
  (trace w ++
   if passes e g then
     [EvWrite (GoLog.out (valvelog g))
        (if endsWithNewline (text e g) then text e g else text e g ++ nl)
        (writable (GoLog.out (valvelog g)) w)]
   else [])%list.
Proof.
  intros Hmin g. rewrite emit_trace. unfold header.
  rewrite formatHeader_bare.
  - reflexivity.
  - unfold g. rewrite Configure_flag. unfold flagsOf. now rewrite Hmin.
  - apply Configure_prefix.
Qed.

(** The result of [Configure] owes nothing to the package variables it
    finds: the logger, the threshold and the colour flag are all built
    anew from the configuration. *)
Lemma Configure_forgets conf g1 g2 w :
  Configure conf g1 w = Configure conf g2 w.
Proof. reflexivity. Qed.

Lemma Debugf_trace g site s args w :
  trace (Debugf g site s args w) =
  (trace w ++
   if passes (EDebugf s args) g then
     [EvWrite (GoLog.out (valvelog g))
        (header g site (clock w (ticks w)) ++
         GoLog.terminate (text (EDebugf s args) g))
        (writable (GoLog.out (valvelog g)) w)]
   else [])%list.
Proof. exact (emit_trace (EDebugf s args) g site w). Qed.

Lemma open_failure_world conf g w reason :
  Output conf = "file" ->
  fs w (Filename conf) = Some reason ->
  snd (Configure conf g w) =
  Debugf (fst (Configure conf g w)) (Some ("bivalve.go", 143))
    "Log Config set to : %+v" [VLogConfig conf]
    (GoLog.Println ("open " ++ Filename conf ++ ": " ++ reason) w).
Proof.
  intros Hout Hfs. unfold Configure, OpenFile. rewrite Hout, Hfs.
  reflexivity.
Qed.

(** C4, amended: when [Configure] is called with output "file" and the
    file cannot be opened, the error is logged through the standard logger
    of package [log], as one line on standard error, and the call does not
    abort: it returns, having set the threshold, the colour flag and the
    header flags from the configuration.  The logger is a new one built by
    this call; nothing of the logger that was active before is kept. *)
Theorem Configure_open_failure (conf : LogConfig) (g : Globals) (w : World)
    (reason : string) :
  Output conf = "file" ->
  fs w (Filename conf) = Some reason ->
  exists g' w',
    Configure conf g w = (g', w') /\
    (exists rest,
       trace w' =
       (trace w ++
        EvWrite Stderr
          (GoLog.formatHeader GoLog.std (clock w (ticks w)) EmptyString 0 ++
           ("open " ++ Filename conf ++ ": " ++ reason) ++ nl) true
        :: rest)%list) /\
    level g' = levelOf conf /\
    terminalOutput g' = TerminalOutput conf /\
    GoLog.flag (valvelog g') = flagsOf conf /\
    (forall g0, Configure conf g0 w = (g', w')).
Proof.
  intros Hout Hfs.
  destruct (Configure conf g w) as [g' w'] eqn:E.
  exists g', w'. split; [reflexivity|].
  assert (Hg : g' = fst (Configure conf g w)) by now rewrite E.
  assert (Hw : w' = snd (Configure conf g w)) by now rewrite E.
  split; [|split; [|split; [|split]]].
  - rewrite Hw, (open_failure_world conf g w reason Hout Hfs).
    rewrite Debugf_trace. unfold GoLog.Println.
    rewrite Output_trace, terminate_app_nl. rewrite <- app_assoc.
    simpl. eexists. reflexivity.
  - rewrite Hg. apply Configure_level.
  - rewrite Hg. apply Configure_terminalOutput.
  - rewrite Hg. apply Configure_flag.
  - intros g0. now rewrite <- E.
Qed.

(** *** Emission after [Configure] *)

Lemma writable_files f w w' : files w = files w' -> writable f w = writable f w'.
Proof. intros H. destruct f; simpl; try reflexivity. now rewrite H. Qed.

Lemma emit_files e g site w : files (emit e g site w) = files w.
Proof.
  rewrite emit_text. destruct (passes e g); [apply Output_files | reflexivity].
Qed.

Lemma emit_fs e g site w : fs (emit e g site w) = fs w.
Proof.
  rewrite emit_text. destruct (passes e g); [apply Output_fs | reflexivity].
Qed.

Lemma emit_clock e g site w : clock (emit e g site w) = clock w.
Proof.
  rewrite emit_text. destruct (passes e g); [apply Output_clock | reflexivity].
Qed.

Lemma emit_ticks e g site w :
  ticks (emit e g site w) = if passes e g then S (ticks w) else ticks w.
Proof.
  rewrite emit_text. destruct (passes e g); [apply Output_ticks | reflexivity].
Qed.

Lemma header_sameGate g1 g2 site t :
  sameGate g1 g2 -> header g1 site t = header g2 site t.
Proof.
  intros (_ & _ & Hf & Hp).
  unfold header, GoLog.located, GoLog.formatHeader. now rewrite Hf, Hp.
Qed.

Lemma text_sameGate g1 g2 e : sameGate g1 g2 -> text e g1 = text e g2.
Proof. intros (_ & Ht & _). unfold text. now rewrite Ht. Qed.

Lemma passes_sameGate g1 g2 e : sameGate g1 g2 -> passes e g1 = passes e g2.
Proof. intros (Hl & _). unfold passes. now rewrite Hl. Qed.

Lemma delivered_app (a b : list event) :
  delivered (a ++ b) = (delivered a ++ delivered b)%list.
Proof. apply filter_app. Qed.

Lemma emitAll_alike (es : list (emission * CallSite)) :
  forall g1 w1 g2 w2,
    sameGate g1 g2 -> sameSink g1 w1 g2 w2 ->
    clock w1 = clock w2 -> ticks w1 = ticks w2 ->
    exists e1 e2,
      trace (emitAll es g1 w1) = (trace w1 ++ e1)%list /\
      trace (emitAll es g2 w2) = (trace w2 ++ e2)%list /\
      delivered e1 = delivered e2.
Proof.
  induction es as [|[e site] es IH]; intros g1 w1 g2 w2 HG HS Hc Ht.
  - exists [], []. simpl. now rewrite !app_nil_r.
  - simpl.
    destruct (IH g1 (emit e g1 site w1) g2 (emit e g2 site w2))
      as (e1 & e2 & H1 & H2 & HD).
    + exact HG.
    + destruct HS as [HSa HSb]. unfold sameSink.
      rewrite (writable_files _ _ _ (emit_files e g1 site w1)).
      rewrite (writable_files _ _ _ (emit_files e g2 site w2)).
      now split.
    + now rewrite !emit_clock.
    + rewrite !emit_ticks, (passes_sameGate g1 g2 e HG), Ht. reflexivity.
    + rewrite H1, H2, !emit_trace, <- !app_assoc.
      do 2 eexists. split; [reflexivity|]. split; [reflexivity|].
      rewrite !delivered_app, HD. f_equal.
      rewrite (passes_sameGate g1 g2 e HG), (header_sameGate g1 g2 site _ HG),
        (text_sameGate g1 g2 e HG), Hc, Ht.
      destruct (passes e g2); [|reflexivity].
      destruct HS as [HSa HSb]. rewrite <- HSa.
      destruct (writable (GoLog.out (valvelog g1)) w1) eqn:Ew; simpl.
      * now rewrite HSb.
      * reflexivity.
Qed.

Lemma closeAt_last (l : list FileObj) (o : FileObj) :
  nth_error (closeAt (List.length l) (l ++ [o])) (List.length l) =
  Some {| name := name o; closed := true |}.
Proof. induction l as [|x l IH]; simpl; [reflexivity | exact IH]. Qed.

(** After [Configure] the sink is a console stream, or a file that does
    not take writes: the nil file when the open failed, and otherwise the
    file that the deferred [Close] has closed on the way out. *)
Lemma Configure_sink conf g w :
  (Output conf <> "file" /\
   GoLog.out (valvelog (fst (Configure conf g w))) =
   if String.eqb (Output conf) "stdout" then Stdout else Stderr) \/
  (Output conf = "file" /\
   writable (GoLog.out (valvelog (fst (Configure conf g w))))
            (snd (Configure conf g w)) = false).
Proof.
  destruct (String.eqb_spec (Output conf) "file") as [Hf|Hf].
  - right. split; [assumption|].
    unfold Configure. rewrite Hf. simpl String.eqb. cbv iota.
    unfold OpenFile. destruct (fs w (Filename conf)) as [reason|].
    + reflexivity.
    + cbv beta iota zeta. unfold fst, snd, Close, writable.
      cbn [files GoLog.out valvelog GoLog.New].
      match goal with
      | |- context [Debugf ?g1 ?st ?f ?a ?w1] =>
          change (Debugf g1 st f a w1) with (emit (EDebugf f a) g1 st w1)
      end.
      rewrite emit_files. cbn [files]. now rewrite closeAt_last.
  - left. split; [assumption|]. now apply Configure_out_console.
Qed.

Lemma Configure_fs conf g w : fs (snd (Configure conf g w)) = fs w.
Proof.
  unfold Configure.
  destruct (String.eqb (Output conf) "file").
  - unfold OpenFile. destruct (fs w (Filename conf)) as [reason|] eqn:E.
    + cbv beta iota zeta. unfold snd, Close.
      match goal with
      | |- context [Debugf ?g1 ?st ?f ?a ?w1] =>
          change (Debugf g1 st f a w1) with (emit (EDebugf f a) g1 st w1)
      end.
      rewrite emit_fs. unfold GoLog.Println. now rewrite Output_fs.
    + cbv beta iota zeta. unfold snd, Close.
      match goal with
      | |- context [Debugf ?g1 ?st ?f ?a ?w1] =>
          change (Debugf g1 st f a w1) with (emit (EDebugf f a) g1 st w1)
      end.
      cbn [fs]. now rewrite emit_fs.
  - destruct (String.eqb (Output conf) "stdout"); cbv beta iota zeta;
      unfold snd;
      match goal with
      | |- context [Debugf ?g1 ?st ?f ?a ?w1] =>
          change (Debugf g1 st f a w1) with (emit (EDebugf f a) g1 st w1)
      end; now rewrite emit_fs.
Qed.

Lemma Configure_twice_alike conf g0 w0 c n :
  let g1 := fst (Configure conf g0 w0) in
  let w1 := snd (Configure conf g0 w0) in
  let g2 := fst (Configure conf g1 w1) in
  let w2 := snd (Configure conf g1 w1) in
  sameGate g2 g1 /\ sameSink g2 (withClock c n w2) g1 (withClock c n w1).
Proof.
  intros g1 w1 g2 w2. split.
  - unfold sameGate, g2, g1.
    now rewrite !Configure_level, !Configure_terminalOutput,
      !Configure_flag, !Configure_prefix.
  - unfold sameSink.
    rewrite (writable_files _ (withClock c n w2) w2) by reflexivity.
    rewrite (writable_files _ (withClock c n w1) w1) by reflexivity.
    destruct (Configure_sink conf g0 w0) as [[Hn H1]|[Hf H1]];
      destruct (Configure_sink conf g1 w1) as [[Hn' H2]|[Hf' H2]];
      try contradiction; fold g1 in H1; fold w1 in H1; fold w1 in H2;
      fold g2 in H2; fold w2 in H2.
    + rewrite H1, H2.
      destruct (String.eqb (Output conf) "stdout"); split; reflexivity.
    + rewrite H1, H2. split; [reflexivity | discriminate].
Qed.

(** C9: calling [Configure] a second time in succession with the same
    configuration changes nothing in what later emitter calls do.  The
    threshold, the colour flag and the header flags are the same after the
    second call as after the first, and any sequence of later emitter
    calls, read against the same clock, delivers the same writes, data and
    destination, after two calls as after one. *)
Theorem Configure_idempotent (conf : LogConfig) (g0 : Globals) (w0 : World)
    (es : list (emission * CallSite)) (c : nat -> GoTime.Time) (n : nat) :
  let g1 := fst (Configure conf g0 w0) in
  let w1 := snd (Configure conf g0 w0) in
  let g2 := fst (Configure conf g1 w1) in
  let w2 := snd (Configure conf g1 w1) in
  level g2 = level g1 /\
  terminalOutput g2 = terminalOutput g1 /\
  GoLog.flag (valvelog g2) = GoLog.flag (valvelog g1) /\
  delivered
    (skipn (List.length (trace w2))
       (trace (emitAll es g2 (withClock c n w2)))) =
  delivered
    (skipn (List.length (trace w1))
       (trace (emitAll es g1 (withClock c n w1)))).
Proof.
  intros g1 w1 g2 w2.
  destruct (Configure_twice_alike conf g0 w0 c n) as [HG HS].
  fold g1 in HG, HS. fold w1 in HS. fold g2 in HG, HS. fold w2 in HS.
  destruct HG as (Hl & Ht & Hf & Hp). repeat split; try assumption.
  destruct (emitAll_alike es g2 (withClock c n w2) g1 (withClock c n w1))
    as (e2 & e1 & H2 & H1 & HD);
    [now repeat split | exact HS | reflexivity | reflexivity |].
  rewrite H2, H1. cbn [withClock trace].
  now rewrite !skipn_app, !skipn_all, !Nat.sub_diag.
Qed.

(** *** The response interceptor *)

Section InterceptorFacts.

Context {R : Type} {RW : ResponseWriter R}.

Lemma serve_status (h : Handler) :
  forall (w w' : statusWriter R) (cs : list call),
    serve h w = Some (w', cs) ->
    sw_status w' = statusAfter (sw_status w) cs.
Proof.
  induction h as [| |code k IH|b k IH]; intros w w' cs H; simpl in H.
  - injection H as <- <-. reflexivity.
  - discriminate.
  - destruct (serve k (WriteHeader code w)) as [[w1 cs1]|] eqn:E;
      [|discriminate].
    injection H as <- <-. simpl. now rewrite (IH _ _ _ E).
  - unfold Write in H.
    destruct (rwWrite b (sw_ResponseWriter w)) as [r [n err]] eqn:Ew.
    destruct (serve (k n err) _) as [[w1 cs1]|] eqn:E; [|discriminate].
    injection H as <- <-. simpl. now rewrite (IH _ _ _ _ _ E).
Qed.


(** What [ServeHTTP] does once the wrapped handler has returned. *)
Lemma ServeHTTP_returns (h : webLoggingHandler) (rw : R) (r : Request)
    (g : Globals) (w : World) (sw : statusWriter R) (cs : list call) :
  serve (handler h r) (fresh rw) = Some (sw, cs) ->
  exists w',
    ServeHTTP h rw r g w = Some (sw_ResponseWriter sw, w') /\
    trace w' =
    (trace w ++
     if infoLevel <=? level g then
       [EvWrite (GoLog.out (valvelog g))
          (header g (Some ("bivalve.go", 237)) (clock w (2 + ticks w)) ++
           accessLine (RemoteAddr r)
             (GoTime.Format GoTime.zero "02/Jan/2006 03:04:05")
             (Method r ++ " " ++ RequestURI r ++ " " ++ Proto r)
             (sw_status sw) (sw_length sw)
             (GoTime.Seconds
                (GoTime.Sub (GoTime.UTC (clock w (S (ticks w))))
                            (clock w (ticks w)))))
          (writable (GoLog.out (valvelog g)) w)]
     else [])%list.
Proof.
  intros H. unfold ServeHTTP, Now. unfold fresh in H. rewrite H.
  eexists. split; [reflexivity|].
  match goal with
  | |- context [Infof ?g1 ?st ?f ?a ?w1] =>
      change (Infof g1 st f a w1) with (emit (EInfof f a) g1 st w1)
  end.
  rewrite emit_trace. cbn [trace ticks clock].
  unfold passes, threshold.
  destruct (infoLevel <=? level g); [|reflexivity].
  unfold text, message.
  replace (if terminalOutput g
           then Sprintf ApacheFormatPattern
                  (accessArgs (accessRecord r sw (clock w (ticks w))
                     (GoTime.UTC (clock w (S (ticks w))))))
           else Sprintf ApacheFormatPattern
                  (accessArgs (accessRecord r sw (clock w (ticks w))
                     (GoTime.UTC (clock w (S (ticks w)))))))
    with (Sprintf ApacheFormatPattern
            (accessArgs (accessRecord r sw (clock w (ticks w))
               (GoTime.UTC (clock w (S (ticks w)))))))
    by (destruct (terminalOutput g); reflexivity).
  unfold accessArgs, accessRecord.
  cbn [ip time method uri protocol status responseBytes elapsedTime].
  rewrite Sprintf_requestLine, Sprintf_ApacheFormatPattern.
  rewrite terminate_accessLine. reflexivity.
Qed.

Lemma statusAfter_writes (cs : list call) :
  forall st,
    forallb isWrote cs = true ->
    statusAfter st cs = if (st =? 0) && negb (noCalls cs) then 200 else st.
Proof.
  induction cs as [|c cs IH]; intros st H.
  - simpl. now rewrite andb_false_r.
  - destruct c as [code|b]; [discriminate|].
    simpl in H. simpl. rewrite (IH _ H).
    destruct (Z.eqb_spec st 0) as [->|Hst]; simpl.
    + reflexivity.
    + destruct (Z.eqb_spec st 0); [contradiction | reflexivity].
Qed.

Lemma statusAfter_app (a b : list call) :
  forall st, statusAfter st (a ++ b) = statusAfter (statusAfter st a) b.
Proof.
  induction a as [|c a IH]; intros st; [reflexivity|].
  destruct c; simpl; apply IH.
Qed.

(** The calls after the last [WriteHeader] are writes: the status is the
    code of that call, or 200 when that code is 0 and a write follows. *)
Lemma statusAfter_last (pre post : list call) (code st : Z) :
  forallb isWrote post = true ->
  statusAfter st (pre ++ WroteHeader code :: post) =
  if (code =? 0) && negb (noCalls post) then 200 else code.
Proof.
  intros H. rewrite statusAfter_app. simpl. now apply statusAfter_writes.
Qed.

(** C2, amended: for a request whose wrapped handler returns, the status
    of the access record is 200 when the handler made at least one body
    write and never called [WriteHeader]; and when the handler called
    [WriteHeader] first and then only wrote, it is the code given to that
    call, unless the code is 0: the interceptor reads 0 as "not set", and
    a body write after it makes the status 200. *)
Theorem interceptor_status (h : webLoggingHandler) (r : Request) (rw : R)
    (sw : statusWriter R) (cs : list call) (start endingTime : GoTime.Time) :
  serve (handler h r) (fresh rw) = Some (sw, cs) ->
  (cs <> [] -> forallb isWrote cs = true ->
   status (accessRecord r sw start endingTime) = 200) /\
  (forall code rest,
     cs = WroteHeader code :: rest -> forallb isWrote rest = true ->
     status (accessRecord r sw start endingTime) =
       (if (code =? 0) && negb (noCalls rest) then 200 else code) /\
     (code <> 0 -> status (accessRecord r sw start endingTime) = code)).
Proof.
  intros H. apply serve_status in H. cbn [accessRecord status fresh sw_status] in *.
  split.
  - intros Hne Hall. rewrite H, (statusAfter_writes cs 0 Hall).
    destruct cs; [contradiction | reflexivity].
  - intros code rest -> Hall.
    rewrite H. pose proof (statusAfter_last [] rest code 0 Hall) as HL.
    simpl app in HL. rewrite HL. split; [reflexivity|].
    intros Hcode.
    destruct (Z.eqb_spec code 0); [contradiction | reflexivity].
Qed.

(** C3, amended: for a request in which the wrapped handler calls
    [WriteHeader] more than once (or once), the status captured by the
    interceptor and put in the access record is the code of the last
    call, not of the first; when that last code is 0 and a body write
    follows it, the status is 200. *)
Theorem interceptor_last_status (h : webLoggingHandler) (r : Request)
    (rw : R) (sw : statusWriter R) (cs pre post : list call) (code : Z)
    (start endingTime : GoTime.Time) :
  serve (handler h r) (fresh rw) = Some (sw, cs) ->
  cs = (pre ++ WroteHeader code :: post)%list ->
  forallb isWrote post = true ->
  sw_status sw = (if (code =? 0) && negb (noCalls post) then 200 else code) /\
  status (accessRecord r sw start endingTime) = sw_status sw.
Proof.
  intros H -> Hall. apply serve_status in H.
  split; [|reflexivity].
  rewrite H. now apply statusAfter_last.
Qed.

(** C5: for every request whose wrapped handler returns, [ServeHTTP]
    returns too and issues at most one write: the line obtained from the
    pattern [ApacheFormatPattern] by substituting the client address,
    the formatted timestamp of the record, the string "METHOD URI
    PROTOCOL", the status, the byte count and the elapsed seconds, after
    the logger's header.  The line goes through [Infof]: it is written
    when the threshold is at least info, and nothing is written when the
    threshold is below info. *)
Theorem access_log_line (h : webLoggingHandler) (rw : R) (r : Request)
    (g : Globals) (w : World) (sw : statusWriter R) (cs : list call) :
  serve (handler h r) (fresh rw) = Some (sw, cs) ->
  let record :=
    accessRecord r sw (clock w (ticks w))
                 (GoTime.UTC (clock w (S (ticks w)))) in
  let line :=
    accessLine (ip record)
      (GoTime.Format (time record) "02/Jan/2006 03:04:05")
      (method record ++ " " ++ uri record ++ " " ++ protocol record)
      (status record) (responseBytes record)
      (GoTime.Seconds (elapsedTime record)) in
  Sprintf ApacheFormatPattern (accessArgs record) = line /\
  exists w',
    ServeHTTP h rw r g w = Some (sw_ResponseWriter sw, w') /\
    (infoLevel <= level g ->
     trace w' =
     (trace w ++
      [EvWrite (GoLog.out (valvelog g))
         (header g (Some ("bivalve.go", 237)) (clock w (2 + ticks w)) ++
          line)
         (writable (GoLog.out (valvelog g)) w)])%list /\
     w' = Infof g (Some ("bivalve.go", 237)) ApacheFormatPattern
                (accessArgs record)
                (snd (Now (snd (Now w))))) /\
    (level g < infoLevel -> trace w' = trace w).
Proof.
  intros H record line. split.
  - unfold accessArgs. rewrite Sprintf_requestLine.
    apply Sprintf_ApacheFormatPattern.
  - destruct (ServeHTTP_returns h rw r g w sw cs H) as (w' & HS & HT).
    exists w'. split; [exact HS|]. split.
    + intros Hle. apply Z.leb_le in Hle. rewrite Hle in HT.
      split; [exact HT|].
      unfold ServeHTTP, Now in HS. unfold fresh in H. rewrite H in HS.
      injection HS as <-. reflexivity.
    + intros Hlt. apply Z.leb_gt in Hlt. rewrite Hlt in HT.
      now rewrite app_nil_r in HT.
Qed.

(** The timestamp of the zero [time.Time], in the layout of the access
    log. *)
Lemma Format_zero :
  GoTime.Format GoTime.zero "02/Jan/2006 03:04:05" = "01/Jan/0001 12:00:00".
Proof. reflexivity. Qed.

(** C6: whatever the clock reads when the request starts and when it
    ends, the timestamp of the access record is the zero [time.Time],
    and the timestamp field of the line is its formatting,
    "01/Jan/0001 12:00:00". *)
Theorem access_log_timestamp (h : webLoggingHandler) (rw : R)
    (r : Request) (g : Globals) (w : World) (sw : statusWriter R)
    (cs : list call) :
  serve (handler h r) (fresh rw) = Some (sw, cs) ->
  infoLevel <= level g ->
  (forall start endingTime,
     time (accessRecord r sw start endingTime) = GoTime.zero) /\
  exists w' rest,
    ServeHTTP h rw r g w = Some (sw_ResponseWriter sw, w') /\
    trace w' =
    (trace w ++
     [EvWrite (GoLog.out (valvelog g))
        (header g (Some ("bivalve.go", 237)) (clock w (2 + ticks w)) ++
         RemoteAddr r ++ " - - [" ++ "01/Jan/0001 12:00:00" ++ "] " ++ rest)
        (writable (GoLog.out (valvelog g)) w)])%list.
Proof.
  intros H Hle. split; [reflexivity|].
  destruct (ServeHTTP_returns h rw r g w sw cs H) as (w' & HS & HT).
  apply Z.leb_le in Hle. rewrite Hle in HT.
  exists w'. eexists. split; [exact HS|].
  rewrite HT, Format_zero. unfold accessLine. reflexivity.
Qed.


End InterceptorFacts.

(** ** Further properties of the file *)

(** *** The interceptor leaves the response alone and counts its bytes *)

Lemma wrap64_plus (a n : Z) : wrap64 (wrap64 a + n) = wrap64 (a + n).
Proof.
  unfold wrap64. set (p := 2 ^ 63). set (q := 2 ^ 64).
  replace ((a + p) mod q - p + n + p) with ((a + p) mod q + n) by lia.
  rewrite Zplus_mod_idemp_l. f_equal. f_equal. lia.
Qed.

Lemma wrap64_range (z : Z) : minInt64 <= wrap64 z <= maxInt64.
Proof.
  unfold wrap64, minInt64, maxInt64.
  pose proof (Z.mod_pos_bound (z + 2 ^ 63) (2 ^ 64) eq_refl). lia.
Qed.

Lemma wrap64_small (z : Z) : minInt64 <= z <= maxInt64 -> wrap64 z = z.
Proof.
  unfold wrap64, minInt64, maxInt64. intros H.
  rewrite Z.mod_small; lia.
Qed.

Section InterceptorMore.

Context {R : Type} {RW : ResponseWriter R}.

Lemma serve_direct (h : Handler) :
  forall w : statusWriter R,
    option_map (fun p => sw_ResponseWriter (fst p)) (serve h w) =
    direct h (sw_ResponseWriter w).
Proof.
  induction h as [| |code k IH|b k IH]; intros w; simpl.
  - reflexivity.
  - reflexivity.
  - pose proof (IH (WriteHeader code w)) as Hk.
    cbn [WriteHeader sw_ResponseWriter] in Hk. rewrite <- Hk.
    destruct (serve k _) as [[w1 cs1]|]; reflexivity.
  - unfold Write.
    destruct (rwWrite b (sw_ResponseWriter w)) as [r [n err]] eqn:Ew.
    match goal with
    | |- context [serve (k n err) ?w1] => pose proof (IH n err w1) as Hk
    end.
    cbn [sw_ResponseWriter] in Hk. rewrite <- Hk.
    destruct (serve (k n err) _) as [[w2 cs1]|]; reflexivity.
Qed.

(** X1: for a handler that uses the writer it is given only through
    [WriteHeader] and [Write], the interceptor passes every call on with
    the same argument and hands every return value back: [ServeHTTP]
    leaves the wrapped writer in the state such a handler would have left
    it in had it been given that writer itself, and it panics exactly when
    the handler would.  A handler that asks the writer for another
    interface is outside this statement. *)
Theorem interceptor_forwards_calls (h : webLoggingHandler) (rw : R)
    (r : Request) (g : Globals) (w : World) :
  option_map fst (ServeHTTP h rw r g w) = direct (handler h r) rw.
Proof.
  pose proof (serve_direct (handler h r) (fresh rw)) as H.
  cbn [fresh sw_ResponseWriter] in H. rewrite <- H.
  unfold ServeHTTP, Now.
  destruct (serve (handler h r) _) as [[sw cs]|]; reflexivity.
Qed.

Lemma serve_length (h : Handler) :
  (forall b (r : R), fst (snd (rwWrite b r)) = Z.of_nat (List.length b)) ->
  forall (w w' : statusWriter R) (cs : list call),
    serve h w = Some (w', cs) ->
    wrap64 (sw_length w') = wrap64 (sw_length w + bodyBytes cs) /\
    (minInt64 <= sw_length w <= maxInt64 ->
     minInt64 <= sw_length w' <= maxInt64).
Proof.
  intros Hall.
  induction h as [| |code k IH|b k IH]; intros w w' cs H; simpl in H.
  - injection H as <- <-. simpl. now rewrite Z.add_0_r.
  - discriminate.
  - destruct (serve k (WriteHeader code w)) as [[w1 cs1]|] eqn:E;
      [|discriminate].
    injection H as <- <-. exact (IH _ _ _ E).
  - unfold Write in H. pose proof (Hall b (sw_ResponseWriter w)) as Hn.
    destruct (rwWrite b (sw_ResponseWriter w)) as [r [n err]] eqn:Ew.
    simpl in Hn. subst n.
    destruct (serve (k _ err) _) as [[w1 cs1]|] eqn:E; [|discriminate].
    injection H as <- <-.
    destruct (IH _ _ _ _ _ E) as [IH1 IH2]. cbn [sw_length] in IH1, IH2.
    split.
    + rewrite IH1. cbn [bodyBytes]. rewrite wrap64_plus. f_equal. lia.
    + intros _. apply IH2. apply wrap64_range.
Qed.

(** X2: when the wrapped writer takes every buffer whole, the length the
    interceptor holds at the end of a request, which is the byte count of
    the access record, is the total number of bytes of all the [Write]
    calls of the handler, reduced to a 64-bit signed integer; it is that
    total itself as long as the total fits. *)
Theorem interceptor_counts_bytes (h : webLoggingHandler) (r : Request)
    (rw : R) (sw : statusWriter R) (cs : list call)
    (start endingTime : GoTime.Time) :
  (forall b (x : R), fst (snd (rwWrite b x)) = Z.of_nat (List.length b)) ->
  serve (handler h r) (fresh rw) = Some (sw, cs) ->
  responseBytes (accessRecord r sw start endingTime) = wrap64 (bodyBytes cs) /\
  (bodyBytes cs <= maxInt64 ->
   responseBytes (accessRecord r sw start endingTime) = bodyBytes cs).
Proof.
  intros Hall H.
  destruct (serve_length (handler h r) Hall _ _ _ H) as [H1 H2].
  cbn [fresh sw_length accessRecord responseBytes] in *.
  assert (Hr : minInt64 <= sw_length sw <= maxInt64)
    by (apply H2; unfold minInt64, maxInt64; lia).
  rewrite (wrap64_small _ Hr) in H1. simpl in H1.
  split; [exact H1|].
  intros Hle. rewrite H1. apply wrap64_small. split; [|exact Hle].
  assert (0 <= bodyBytes cs).
  { clear. induction cs as [|[code|b] cs IH]; simpl; lia. }
  unfold minInt64. lia.
Qed.

End InterceptorMore.

(** *** The sink after [Configure] *)

Lemma emitAll_files (es : list (emission * CallSite)) :
  forall g w, files (emitAll es g w) = files w.
Proof.
  induction es as [|[e site] es IH]; intros g w; simpl; [reflexivity|].
  now rewrite IH, emit_files.
Qed.

Lemma emitAll_dead (es : list (emission * CallSite)) :
  forall g w,
    writable (GoLog.out (valvelog g)) w = false ->
    delivered (trace (emitAll es g w)) = delivered (trace w).
Proof.
  induction es as [|[e site] es IH]; intros g w H; simpl; [reflexivity|].
  rewrite IH.
  - rewrite emit_trace, delivered_app.
    destruct (passes e g); simpl; rewrite ?H; simpl; now rewrite app_nil_r.
  - now rewrite (writable_files _ _ w (emit_files e g site w)).
Qed.

(** X3: after [Configure] with output "file" the log file takes no line.
    Whether the open failed or succeeded, the sink the call leaves behind
    refuses every write, because the deferred [Close] has closed the file
    on the way out (or the file is nil): no later emitter call, whatever
    its level, delivers anything anywhere. *)
Theorem file_sink_takes_nothing (conf : LogConfig) (g0 : Globals) (w0 : World)
    (es : list (emission * CallSite)) :
  Output conf = "file" ->
  let g := fst (Configure conf g0 w0) in
  let w := snd (Configure conf g0 w0) in
  writable (GoLog.out (valvelog g)) w = false /\
  delivered (trace (emitAll es g w)) = delivered (trace w).
Proof.
  intros Hf g w.
  destruct (Configure_sink conf g0 w0) as [[Hn _]|[_ Hw]]; [contradiction|].
  split; [exact Hw|]. now apply emitAll_dead.
Qed.

Lemma endsWithNewline_app_cons (a : string) (c : ascii) (b : string) :
  endsWithNewline (a ++ String c b) = endsWithNewline (String c b).
Proof.
  induction a as [|x a IH]; [reflexivity|].
  change ((String x a ++ String c b)%string) with (String x (a ++ String c b)).
  cbn [endsWithNewline]. destruct (a ++ String c b) eqn:E.
  - destruct a; discriminate.
  - exact IH.
Qed.

Lemma terminate_echoText (conf : LogConfig) :
  GoLog.terminate (echoText conf) = echoText conf ++ nl.
Proof.
  unfold GoLog.terminate, echoText, fmtLogConfig.
  destruct (TerminalOutput conf); cbv zeta;
    rewrite <- !append_assoc; now rewrite endsWithNewline_app_cons.
Qed.

Lemma text_echo (conf : LogConfig) (g : Globals) :
  terminalOutput g = TerminalOutput conf ->
  text (EDebugf "Log Config set to : %+v" [VLogConfig conf]) g = echoText conf.
Proof.
  intros H. unfold text, message, echoText. rewrite H.
  assert (E : Sprintf "Log Config set to : %+v" [VLogConfig conf] =
              "Log Config set to : " ++ fmtLogConfig conf).
  { unfold GoFmt.Sprintf. simpl sprintf. cbv iota.
    now rewrite append_empty_r. }
  now rewrite E.
Qed.

Lemma passes_echo (conf : LogConfig) (g : Globals) s args :
  level g = levelOf conf ->
  passes (EDebugf s args) g = String.eqb (Level conf) "debug".
Proof.
  intros H. unfold passes, threshold. rewrite H. unfold levelOf.
  destruct (String.eqb (Level conf) "debug"); [reflexivity|].
  destruct (String.eqb (Level conf) "error"); reflexivity.
Qed.

Lemma closeAt_app_last (l : list FileObj) (o : FileObj) :
  closeAt (List.length l) (l ++ [o]) =
  (l ++ [{| name := name o; closed := true |}])%list.
Proof. induction l as [|x l IH]; simpl; [reflexivity | now rewrite IH]. Qed.

Lemma nth_error_last (l : list FileObj) (o : FileObj) :
  nth_error (l ++ [o]) (List.length l) = Some o.
Proof. induction l as [|x l IH]; simpl; [reflexivity | exact IH]. Qed.

Lemma file_opened_world conf g w :
  Output conf = "file" ->
  fs w (Filename conf) = None ->
  GoLog.out (valvelog (fst (Configure conf g w))) =
    Opened (List.length (files w)) /\
  snd (Configure conf g w) =
  Close (Opened (List.length (files w)))
    (Debugf (fst (Configure conf g w)) (Some ("bivalve.go", 143))
       "Log Config set to : %+v" [VLogConfig conf]
       {| clock := clock w; ticks := ticks w; fs := fs w;
          files := files w ++ [{| name := Filename conf; closed := false |}];
          trace := trace w |}).
Proof.
  intros Hout Hfs. unfold Configure, OpenFile. rewrite Hout, Hfs.
  split; reflexivity.
Qed.

(** X4: when [Configure] is called with output "file" and the file opens,
    the call creates one file object for the path and returns with that
    object closed.  The only line the file ever receives from the package
    is the echo of the configuration, written before the close, and only
    at the debug level. *)
Theorem Configure_file_opened (conf : LogConfig) (g : Globals) (w : World) :
  Output conf = "file" ->
  fs w (Filename conf) = None ->
  let g' := fst (Configure conf g w) in
  let w' := snd (Configure conf g w) in
  GoLog.out (valvelog g') = Opened (List.length (files w)) /\
  files w' =
    (files w ++ [{| name := Filename conf; closed := true |}])%list /\
  trace w' =
    (trace w ++
     if String.eqb (Level conf) "debug" then
       [EvWrite (Opened (List.length (files w)))
          (header g' (Some ("bivalve.go", 143)) (clock w (ticks w)) ++
           echoText conf ++ nl) true]
     else [])%list.
Proof.
  intros Hout Hfs g' w'.
  destruct (file_opened_world conf g w Hout Hfs) as [Ho Hw].
  fold g' in Ho, Hw. fold w' in Hw.
  split; [exact Ho|]. rewrite Hw. split.
  - unfold Close. cbn [files].
    change (Debugf g' ?st ?f ?a ?x) with (emit (EDebugf f a) g' st x).
    rewrite emit_files. cbn [files]. apply closeAt_app_last.
  - replace (trace (Close _ _))
      with (trace (Debugf g' (Some ("bivalve.go", 143))
              "Log Config set to : %+v" [VLogConfig conf]
              {| clock := clock w; ticks := ticks w; fs := fs w;
                 files := files w ++
                          [{| name := Filename conf; closed := false |}];
                 trace := trace w |})) by reflexivity.
    rewrite Debugf_trace. cbn [trace clock ticks].
    rewrite (passes_echo conf g') by apply Configure_level.
    rewrite (text_echo conf g') by apply Configure_terminalOutput.
    rewrite terminate_echoText, Ho.
    destruct (String.eqb (Level conf) "debug"); [|reflexivity].
    unfold writable. cbn [files]. now rewrite nth_error_last.
Qed.

Lemma File_eqb_refl (f : File) : File_eqb f f = true.
Proof. destruct f; simpl; try reflexivity. apply Nat.eqb_refl. Qed.

Lemma File_eqb_eq (f g : File) : File_eqb f g = true -> f = g.
Proof.
  destruct f, g; simpl; try discriminate; try reflexivity.
  intros H. apply Nat.eqb_eq in H. now subst.
Qed.

Lemma received_app (f : File) (a b : list event) :
  received f (a ++ b) = (received f a ++ received f b)%list.
Proof.
  induction a as [|[dst data ok] a IH]; simpl; [reflexivity|].
  destruct (ok && File_eqb dst f); simpl; now rewrite IH.
Qed.

(** X5: after [Configure] with an output other than "file", every emitter
    call that passes the gate lands on the console stream of the
    configuration, standard output for "stdout" and standard error for
    anything else: that stream receives exactly one more record, the
    header followed by the text and its line feed, and no other
    destination receives anything. *)
Theorem console_delivery (conf : LogConfig) (g0 : Globals) (w0 : World)
    (e : emission) (site : CallSite) (w : World) :
  Output conf <> "file" ->
  let g := fst (Configure conf g0 w0) in
  passes e g = true ->
  received (consoleOf conf) (trace (emit e g site w)) =
    (received (consoleOf conf) (trace w) ++
     [(header g site (clock w (ticks w)) ++
       GoLog.terminate (text e g))%string])%list /\
  (forall f, f <> consoleOf conf ->
     received f (trace (emit e g site w)) = received f (trace w)).
Proof.
  intros Hn g Hp.
  assert (Ho : GoLog.out (valvelog g) = consoleOf conf)
    by (apply Configure_out_console; exact Hn).
  rewrite emit_trace, Hp, Ho.
  assert (Hw : writable (consoleOf conf) w = true)
    by (unfold consoleOf; destruct (String.eqb (Output conf) "stdout");
        reflexivity).
  rewrite Hw. split.
  - rewrite received_app. simpl. now rewrite File_eqb_refl.
  - intros f Hf. rewrite received_app. simpl.
    destruct (File_eqb (consoleOf conf) f) eqn:E.
    + apply File_eqb_eq in E. now subst.
    + now rewrite app_nil_r.
Qed.

(** X6: the level names decide the gate, and they are matched exactly.
    After [Configure], [Debug] emits if and only if the level of the
    configuration is the string "debug", and [Info] emits if and only if
    it is not the string "error"; any other spelling is the info level. *)
Theorem gate_by_level_name (conf : LogConfig) (g0 : Globals) (w0 : World)
    (site : CallSite) (s : string) (w : World) :
  let g := fst (Configure conf g0 w0) in
  (emits g w (Debug g site s w) <-> Level conf = "debug") /\
  (emits g w (Info g site s w) <-> Level conf <> "error").
Proof.
  intros g.
  pose proof (emits_iff (EDebug s) g site w) as HD.
  pose proof (emits_iff (EInfo s) g site w) as HI.
  simpl emit in HD, HI. unfold passes, threshold in HD, HI.
  unfold g in HD at 3. unfold g in HI at 3.
  rewrite Configure_level in HD, HI. unfold levelOf in HD, HI.
  split.
  - rewrite HD. destruct (String.eqb_spec (Level conf) "debug") as [E|E].
    + split; [intros _; exact E | reflexivity].
    + destruct (String.eqb (Level conf) "error");
        (split; [discriminate | contradiction]).
  - rewrite HI. destruct (String.eqb_spec (Level conf) "debug") as [E|E].
    + split; [intros _; rewrite E; discriminate | reflexivity].
    + destruct (String.eqb_spec (Level conf) "error") as [E'|E'].
      * split; [discriminate | contradiction].
      * split; [intros _; exact E' | reflexivity].
Qed.

(** X7: with an output other than "file" and the level "debug",
    [Configure] itself writes one record on the console stream it has just
    selected: the new header followed by "Log Config set to : " and the
    fields of the configuration, in cyan when [TerminalOutput] is set. *)
Theorem Configure_echo (conf : LogConfig) (g : Globals) (w : World) :
  Output conf <> "file" ->
  Level conf = "debug" ->
  let g' := fst (Configure conf g w) in
  trace (snd (Configure conf g w)) =
  (trace w ++
   [EvWrite (consoleOf conf)
      (header g' (Some ("bivalve.go", 143)) (clock w (ticks w)) ++
       echoText conf ++ nl) true])%list.
Proof.
  intros Hn Hd g'.
  rewrite (Configure_console_world conf g w Hn). fold g'.
  rewrite Debugf_trace.
  rewrite (passes_echo conf g') by apply Configure_level.
  rewrite (text_echo conf g') by apply Configure_terminalOutput.
  rewrite terminate_echoText, Hd.
  assert (Ho : GoLog.out (valvelog g') = consoleOf conf)
    by (apply Configure_out_console; exact Hn).
  rewrite Ho. unfold consoleOf.
  destruct (String.eqb (Output conf) "stdout"); reflexivity.
Qed.

(** X12: a sequence of emitter calls issues exactly one write for each
    call that passes the gate, none for the others: nothing is dropped,
    nothing is written twice. *)
Theorem one_write_per_emission (es : list (emission * CallSite)) :
  forall (g : Globals) (w : World),
    List.length (trace (emitAll es g w)) =
    (List.length (trace w) + passing es g)%nat.
Proof.
  induction es as [|[e site] es IH]; intros g w; simpl.
  - now rewrite Nat.add_0_r.
  - rewrite IH, emit_trace, length_app.
    destruct (passes e g); simpl; lia.
Qed.

(** *** The full header *)

(** X8: after [Configure] with [DisplayMinimal = false], the header of
    every line is the date, the time and the microseconds of the instant
    read in UTC, whatever the time zone of the clock, followed by the file
    name of the call site cut to its last element, the line and a colon;
    a call site the runtime cannot resolve is printed as "???:0". *)
Theorem full_header (conf : LogConfig) (g0 : Globals) (w0 : World)
    (file : string) (line : Z) (t : GoTime.Time) :
  DisplayMinimal conf = false ->
  let g := fst (Configure conf g0 w0) in
  header g (Some (file, line)) t =
    utcStamp t ++ GoLog.shortFile file ++ ":" ++ itoa line ++ ": " /\
  header g None t = utcStamp t ++ "???:0: " /\
  (forall site zone,
     header g site
       {| GoTime.sec := GoTime.sec t; GoTime.nsec := GoTime.nsec t;
          GoTime.offset := zone |} = header g site t).
Proof.
  intros Hmin g.
  assert (Hf : GoLog.flag (valvelog g) = 55)
    by (unfold g; rewrite Configure_flag; unfold flagsOf; now rewrite Hmin).
  assert (Hp : GoLog.prefix (valvelog g) = EmptyString)
    by apply Configure_prefix.
  assert (Hh : forall site u,
             header g site u =
             utcStamp u ++
             (GoLog.shortFile
                (fst match site with Some fl => fl | None => ("???", 0) end) ++
              ":" ++
              itoa (snd match site with Some fl => fl | None => ("???", 0) end) ++
              ": ")).
  { intros site u. unfold header, GoLog.formatHeader, GoLog.located, utcStamp.
    rewrite Hf, Hp.
    change (GoLog.has 55 GoLog.Lmsgprefix) with false.
    change (GoLog.has 55 (Z.lor GoLog.Ldate (Z.lor GoLog.Ltime GoLog.Lmicroseconds)))
      with true.
    change (GoLog.has 55 GoLog.LUTC) with true.
    change (GoLog.has 55 GoLog.Ldate) with true.
    change (GoLog.has 55 (Z.lor GoLog.Ltime GoLog.Lmicroseconds)) with true.
    change (GoLog.has 55 GoLog.Lmicroseconds) with true.
    change (GoLog.has 55 (Z.lor GoLog.Lshortfile GoLog.Llongfile)) with true.
    change (GoLog.has 55 GoLog.Lshortfile) with true.
    cbv iota.
    destruct (GoTime.Date (GoTime.UTC u)) as [[y mo] d].
    destruct (GoTime.Clock (GoTime.UTC u)) as [[h mi] s].
    cbn [GoTime.UTC GoTime.nsec].
    rewrite append_empty_r.
    repeat first [rewrite append_assoc | progress cbn [append]].
    reflexivity. }
  split; [|split].
  - apply Hh.
  - rewrite Hh. reflexivity.
  - intros site zone. rewrite !Hh. reflexivity.
Qed.

(** *** Package initialisation *)

Lemma assertString_env env key d :
  assertString (getEnvConfigValueOr env key (VString d)) =
  Some (orDefault (env key) d).
Proof.
  unfold getEnvConfigValueOr, orDefault.
  destruct (String.eqb (env key) EmptyString); reflexivity.
Qed.

(** X9: package initialisation cannot survive the environment variable
    BIVALVE_DISPLAY_MINIMAL.  As soon as the variable holds any non-empty
    text, the value looked up is a string, the assertion that it is a
    boolean panics, and [init] never reaches [Configure]. *)
Theorem init_panics_on_display_minimal (env : string -> string)
    (g : Globals) (w : World) :
  env configDisplayMinimalKey <> EmptyString ->
  init env g w = None.
Proof.
  intros H. apply String.eqb_neq in H. unfold init.
  rewrite !assertString_env. unfold getEnvConfigValueOr. rewrite H.
  reflexivity.
Qed.

(** X10: when BIVALVE_DISPLAY_MINIMAL is unset or empty, package
    initialisation is [Configure] on the three strings of the environment,
    each replaced by its default ("stdout", "info", "bivalve.log") when
    unset or empty.  The minimal display and the colours are never
    selected: the logger has the full header and [terminalOutput] is off. *)
Theorem init_configures (env : string -> string) (g : Globals) (w : World) :
  env configDisplayMinimalKey = EmptyString ->
  let conf :=
    {| Output := orDefault (env configOutputKey) "stdout";
       Level := orDefault (env configLevelKey) "info";
       Filename := orDefault (env configFilenameKey) "bivalve.log";
       DisplayMinimal := false;
       TerminalOutput := false |} in
  init env g w = Some (Configure conf g w) /\
  level (fst (Configure conf g w)) =
    levelOf conf /\
  GoLog.flag (valvelog (fst (Configure conf g w))) = 55 /\
  terminalOutput (fst (Configure conf g w)) = false.
Proof.
  intros H conf. split; [|split; [|split]].
  - unfold init. rewrite !assertString_env.
    unfold getEnvConfigValueOr. rewrite H. reflexivity.
  - apply Configure_level.
  - rewrite Configure_flag. reflexivity.
  - rewrite Configure_terminalOutput. reflexivity.
Qed.

(** *** The call-site header *)

Lemma afterLastSlash_noSlash (s : string) :
  noSlash s = true -> GoLog.afterLastSlash s = None.
Proof.
  induction s as [|c s IH]; [reflexivity|].
  simpl. intros H. apply andb_prop in H as [Hc Hs].
  rewrite (IH Hs). apply negb_true_iff in Hc. now rewrite Hc.
Qed.

Lemma afterLastSlash_app (dir base : string) :
  noSlash base = true ->
  GoLog.afterLastSlash (dir ++ "/" ++ base) = Some base.
Proof.
  intros H. induction dir as [|c dir IH].
  - simpl. now rewrite (afterLastSlash_noSlash base H).
  - change ((String c dir ++ "/" ++ base)%string)
      with (String c (dir ++ "/" ++ base)).
    cbn [GoLog.afterLastSlash]. now rewrite IH.
Qed.

(** X11: [header] prints the call site as "[file:line]" with the
    directories removed.  For a path made of any directory part, a slash
    and a last element without slash, only the last element is printed; a
    name without slash is printed whole; and when the runtime cannot
    resolve the caller the result is "[???:1]". *)
Theorem callSiteHeader_last_element (dir base : string) (line : Z) :
  noSlash base = true ->
  callSiteHeader (Some (dir ++ "/" ++ base, line)) =
    "[" ++ base ++ ":" ++ itoa line ++ "]" /\
  callSiteHeader (Some (base, line)) = "[" ++ base ++ ":" ++ itoa line ++ "]" /\
  callSiteHeader None = "[???:1]".
Proof.
  intros H. unfold callSiteHeader.
  rewrite (afterLastSlash_app dir base H), (afterLastSlash_noSlash base H).
  repeat split; reflexivity.
Qed.

End Bivalve.

(** ** The properties on the example data *)

(** The scenario of the level gate: after [Configure] with output stdout,
    level error and the minimal display, [Debug] and [Info] write nothing
    and [Error] writes its message and a line feed. *)
Lemma level_gate_witness :
  let g := fst (Configure exampleFmt stdoutErrorMinimal initial exampleWorld) in
  level g = errorLevel /\
  Debug exampleFmt g None "x" exampleWorld = exampleWorld /\
  Info g None "y" exampleWorld = exampleWorld /\
  emits g exampleWorld (Error exampleFmt g None "z" exampleWorld) /\
  trace (Error exampleFmt g None "z" exampleWorld) =
  [EvWrite Stdout ("z" ++ nl) true].
Proof.
  intros g.
  pose proof (level_gate exampleFmt g None "x" [] exampleWorld)
    as (_ & _ & _ & _ & _ & _ & HD & _).
  pose proof (level_gate exampleFmt g None "y" [] exampleWorld)
    as (_ & _ & _ & _ & _ & _ & _ & HI).
  pose proof (level_gate exampleFmt g None "z" [] exampleWorld)
    as (_ & _ & _ & _ & HE & _).
  split; [reflexivity|].
  split; [apply HD; vm_compute; reflexivity|].
  split; [apply HI; vm_compute; reflexivity|].
  split; [exact HE | reflexivity].
Defined.

(** C2, as stated, fails: the handler sets the status 0 and then writes;
    the interceptor and the access-log line carry 200, not the status that
    was set. *)
Lemma zero_status_reported_as_200 :
  serve (RW := discard) (handler zeroStatusHandler getFoo) (fresh tt) =
    Some ({| sw_ResponseWriter := tt; sw_status := 200; sw_length := 1 |},
          [WroteHeader 0; Wrote (list_byte_of_string "x")]) /\
  status (accessRecord getFoo
            {| sw_ResponseWriter := tt; sw_status := 200; sw_length := 1 |}
            (exampleClock 0) (exampleClock 1)) <> 0 /\
  option_map (fun out => trace (snd out))
    (ServeHTTP exampleFmt (RW := discard) zeroStatusHandler tt getFoo
       (fst (Configure exampleFmt stdoutInfoMinimal initial exampleWorld))
       exampleWorld) =
  Some [EvWrite Stdout
          ("127.0.0.1:5000 - - [01/Jan/0001 12:00:00] " ++ dquote ++
           "GET /foo HTTP/1.1 200 1" ++ dquote ++ " 1.500000" ++ nl) true].
Proof. split; [reflexivity|]. split; [discriminate | reflexivity]. Qed.

Lemma interceptor_status_witness :
  serve (RW := discard) (handler helloHandler getFoo) (fresh tt) =
    Some ({| sw_ResponseWriter := tt; sw_status := 200; sw_length := 5 |},
          [Wrote (list_byte_of_string "hello")]) /\
  status (accessRecord getFoo
            {| sw_ResponseWriter := tt; sw_status := 200; sw_length := 5 |}
            (exampleClock 0) (exampleClock 1)) = 200 /\
  serve (RW := discard) (handler notFoundHandler getFoo) (fresh tt) =
    Some ({| sw_ResponseWriter := tt; sw_status := 404; sw_length := 9 |},
          [WroteHeader 404; Wrote (list_byte_of_string "not found")]) /\
  status (accessRecord getFoo
            {| sw_ResponseWriter := tt; sw_status := 404; sw_length := 9 |}
            (exampleClock 0) (exampleClock 1)) = 404 /\
  serve (RW := discard) (handler zeroStatusHandler getFoo) (fresh tt) =
    Some ({| sw_ResponseWriter := tt; sw_status := 200; sw_length := 1 |},
          [WroteHeader 0; Wrote (list_byte_of_string "x")]) /\
  status (accessRecord getFoo
            {| sw_ResponseWriter := tt; sw_status := 200; sw_length := 1 |}
            (exampleClock 0) (exampleClock 1)) = 200.
Proof.
  split; [reflexivity|]. split; [|split; [reflexivity|]].
  - apply (proj1 (@interceptor_status unit discard helloHandler getFoo tt _ _
                    (exampleClock 0) (exampleClock 1) eq_refl)).
    + discriminate.
    + reflexivity.
  - split; [|split; [reflexivity|]].
    + apply (proj2 (@interceptor_status unit discard notFoundHandler getFoo tt
                      _ _ (exampleClock 0) (exampleClock 1) eq_refl)
                   404 [Wrote (list_byte_of_string "not found")]
                   eq_refl eq_refl).
      discriminate.
    + exact (proj1 (proj2 (@interceptor_status unit discard zeroStatusHandler
                             getFoo tt _ _ (exampleClock 0) (exampleClock 1)
                             eq_refl)
                          0 [Wrote (list_byte_of_string "x")]
                          eq_refl eq_refl)).
Defined.

(** C3, as stated, fails: the handler sets 404 and then 500, and both the
    interceptor and the access-log line carry 500, the second code. *)
Lemma first_status_overwritten :
  serve (RW := discard) (handler twoStatusHandler getFoo) (fresh tt) =
    Some ({| sw_ResponseWriter := tt; sw_status := 500; sw_length := 0 |},
          [WroteHeader 404; WroteHeader 500]) /\
  option_map (fun out => trace (snd out))
    (ServeHTTP exampleFmt (RW := discard) twoStatusHandler tt getFoo
       (fst (Configure exampleFmt stdoutInfoMinimal initial exampleWorld))
       exampleWorld) =
  Some [EvWrite Stdout
          ("127.0.0.1:5000 - - [01/Jan/0001 12:00:00] " ++ dquote ++
           "GET /foo HTTP/1.1 500 0" ++ dquote ++ " 1.500000" ++ nl) true].
Proof. split; reflexivity. Qed.

Lemma interceptor_last_status_witness :
  serve (RW := discard) (handler twoStatusHandler getFoo) (fresh tt) =
    Some ({| sw_ResponseWriter := tt; sw_status := 500; sw_length := 0 |},
          [WroteHeader 404; WroteHeader 500]) /\
  sw_status {| sw_ResponseWriter := tt; sw_status := 500; sw_length := 0 |} =
    500 /\
  status (accessRecord getFoo
            {| sw_ResponseWriter := tt; sw_status := 500; sw_length := 0 |}
            (exampleClock 0) (exampleClock 1)) =
  sw_status {| sw_ResponseWriter := tt; sw_status := 500; sw_length := 0 |}.
Proof.
  split; [reflexivity|].
  apply (@interceptor_last_status unit discard twoStatusHandler getFoo tt _ _
           [WroteHeader 404] [] 500 (exampleClock 0) (exampleClock 1)
           eq_refl eq_refl eq_refl).
Defined.

(** C4, as stated, fails: with standard output as the sink, a [Configure]
    whose file cannot be opened leaves the nil file as the sink; [Error]
    then reaches neither standard output nor anything else. *)
Lemma failed_open_drops_sink :
  let g1 := fst (Configure exampleFmt stdoutErrorMinimal initial exampleWorld) in
  let w1 := snd (Configure exampleFmt stdoutErrorMinimal initial exampleWorld) in
  let g2 := fst (Configure exampleFmt unopenableFile g1 w1) in
  let w2 := snd (Configure exampleFmt unopenableFile g1 w1) in
  GoLog.out (valvelog g1) = Stdout /\
  received Stdout (trace (Error exampleFmt g1 None "z" w1)) = ["z" ++ nl] /\
  GoLog.out (valvelog g2) = Nil /\
  trace w2 =
    [EvWrite Stderr
       ("2009/11/10 23:00:00 open /nonexistent/bivalve.log: " ++
        "no such file or directory" ++ nl) true] /\
  trace (Error exampleFmt g2 None "z" w2) =
    (trace w2 ++ [EvWrite Nil ("z" ++ nl) false])%list /\
  received Stdout (trace (Error exampleFmt g2 None "z" w2)) = [] /\
  delivered (trace (Error exampleFmt g2 None "z" w2)) = delivered (trace w2).
Proof. repeat split; reflexivity. Qed.

Lemma Configure_open_failure_witness :
  Output unopenableFile = "file" /\
  fs exampleWorld (Filename unopenableFile) = Some "no such file or directory" /\
  exists g' w',
    Configure exampleFmt unopenableFile initial exampleWorld = (g', w') /\
    (exists rest,
       trace w' =
       (trace exampleWorld ++
        EvWrite Stderr
          (GoLog.formatHeader GoLog.std (clock exampleWorld (ticks exampleWorld))
             EmptyString 0 ++
           ("open " ++ Filename unopenableFile ++ ": " ++
            "no such file or directory") ++ nl) true
        :: rest)%list) /\
    level g' = levelOf unopenableFile /\
    terminalOutput g' = TerminalOutput unopenableFile /\
    GoLog.flag (valvelog g') = flagsOf unopenableFile /\
    (forall g0, Configure exampleFmt unopenableFile g0 exampleWorld = (g', w')).
Proof.
  split; [reflexivity|]. split; [reflexivity|].
  apply (Configure_open_failure exampleFmt unopenableFile initial exampleWorld
           "no such file or directory"); reflexivity.
Defined.

Lemma access_log_line_witness :
  let g := fst (Configure exampleFmt stdoutInfoMinimal initial exampleWorld) in
  serve (RW := discard) (handler helloHandler getFoo) (fresh tt) =
    Some ({| sw_ResponseWriter := tt; sw_status := 200; sw_length := 5 |},
          [Wrote (list_byte_of_string "hello")]) /\
  infoLevel <= level g /\
  exists w',
    ServeHTTP exampleFmt (RW := discard) helloHandler tt getFoo g exampleWorld =
      Some (tt, w') /\
    trace w' =
    [EvWrite Stdout
       ("127.0.0.1:5000 - - [01/Jan/0001 12:00:00] " ++ dquote ++
        "GET /foo HTTP/1.1 200 5" ++ dquote ++ " 1.500000" ++ nl) true].
Proof.
  intros g. split; [reflexivity|]. split; [vm_compute; discriminate|].
  destruct (@access_log_line exampleFmt unit discard helloHandler tt getFoo g
              exampleWorld _ _ eq_refl) as (_ & w' & HS & HT & _).
  exists w'. split; [exact HS|].
  destruct HT as [HT _]; [vm_compute; discriminate|].
  rewrite HT. reflexivity.
Defined.

Lemma access_log_timestamp_witness :
  let g := fst (Configure exampleFmt stdoutInfoMinimal initial exampleWorld) in
  serve (RW := discard) (handler helloHandler getFoo) (fresh tt) =
    Some ({| sw_ResponseWriter := tt; sw_status := 200; sw_length := 5 |},
          [Wrote (list_byte_of_string "hello")]) /\
  infoLevel <= level g /\
  GoTime.Format (exampleClock 0) "02/Jan/2006 03:04:05" = "10/Nov/2009 11:00:00" /\
  exists w' rest,
    ServeHTTP exampleFmt (RW := discard) helloHandler tt getFoo g exampleWorld =
      Some (tt, w') /\
    trace w' =
    [EvWrite Stdout
       ("127.0.0.1:5000 - - [01/Jan/0001 12:00:00] " ++ rest) true].
Proof.
  intros g. split; [reflexivity|]. split; [vm_compute; discriminate|].
  split; [reflexivity|].
  destruct (@access_log_timestamp exampleFmt unit discard helloHandler tt
              getFoo g exampleWorld _ _ eq_refl) as (_ & w' & rest & HS & HT).
  - vm_compute; discriminate.
  - exists w', rest. split; [exact HS|]. rewrite HT. reflexivity.
Defined.

Lemma Configure_fallbacks_witness :
  Output unknownNames <> "file" /\ Output unknownNames <> "stdout" /\
  Level unknownNames <> "debug" /\ Level unknownNames <> "error" /\
  GoLog.out (valvelog (fst (Configure exampleFmt unknownNames initial exampleWorld))) =
    Stderr /\
  level (fst (Configure exampleFmt unknownNames initial exampleWorld)) = infoLevel /\
  snd (Configure exampleFmt unknownNames initial exampleWorld) = exampleWorld.
Proof.
  pose proof (Configure_fallbacks exampleFmt unknownNames initial exampleWorld)
    as (H1 & H2 & H3).
  split; [discriminate|]. split; [discriminate|].
  split; [discriminate|]. split; [discriminate|].
  split; [apply H1; discriminate|].
  split; [apply H2; discriminate | apply H3; discriminate].
Defined.

(** C8, as stated, fails twice over.  With the minimal display and
    [TerminalOutput] set, [Error "z"] writes "z" between the escape
    sequences of the colour, not "z" and a line feed; and a message that
    ends with a line feed is written as it is, with no line feed added. *)
Lemma coloured_or_terminated_output :
  let g := fst (Configure exampleFmt stdoutInfoMinimalColour initial exampleWorld) in
  trace (Error exampleFmt g None "z" exampleWorld) =
    [EvWrite Stdout (esc ++ "[1;31mz" ++ esc ++ "[0m" ++ nl) true] /\
  esc ++ "[1;31mz" ++ esc ++ "[0m" ++ nl <> "z" ++ nl /\
  trace (Info g None ("z" ++ nl) exampleWorld) =
    [EvWrite Stdout ("z" ++ nl) true] /\
  "z" ++ nl <> ("z" ++ nl) ++ nl.
Proof. repeat split; try reflexivity; discriminate. Qed.

Lemma minimal_output_witness :
  DisplayMinimal stdoutInfoMinimalColour = true /\
  trace (emit exampleFmt (EError "z")
           (fst (Configure exampleFmt stdoutInfoMinimalColour initial exampleWorld))
           None exampleWorld) =
  [EvWrite Stdout (esc ++ "[1;31mz" ++ esc ++ "[0m" ++ nl) true].
Proof.
  split; [reflexivity|].
  rewrite (minimal_output exampleFmt stdoutInfoMinimalColour initial
             exampleWorld (EError "z") None exampleWorld eq_refl).
  reflexivity.
Defined.


(** ** The further properties on the example data *)

Lemma interceptor_counts_bytes_witness :
  serve (RW := discard) (handler notFoundHandler getFoo) (fresh tt) =
    Some ({| sw_ResponseWriter := tt; sw_status := 404; sw_length := 9 |},
          [WroteHeader 404; Wrote (list_byte_of_string "not found")]) /\
  responseBytes
    (accessRecord getFoo
       {| sw_ResponseWriter := tt; sw_status := 404; sw_length := 9 |}
       (exampleClock 0) (exampleClock 1)) = 9.
Proof.
  split; [reflexivity|].
  apply (proj2 (@interceptor_counts_bytes unit discard notFoundHandler getFoo
                  tt _ _ (exampleClock 0) (exampleClock 1)
                  (fun b x => eq_refl) eq_refl)).
  vm_compute. discriminate.
Defined.

Lemma file_sink_takes_nothing_witness :
  Output fileDebug = "file" /\
  let g := fst (Configure exampleFmt fileDebug initial exampleWorld) in
  let w := snd (Configure exampleFmt fileDebug initial exampleWorld) in
  writable (GoLog.out (valvelog g)) w = false /\
  delivered (trace (emitAll exampleFmt
                      [(EError "z", None); (EDebug "x", None)] g w)) =
  delivered (trace w).
Proof.
  split; [reflexivity|].
  apply (file_sink_takes_nothing exampleFmt fileDebug initial exampleWorld
           [(EError "z", None); (EDebug "x", None)] eq_refl).
Defined.

Lemma Configure_file_opened_witness :
  Output fileDebug = "file" /\
  fs exampleWorld (Filename fileDebug) = None /\
  files (snd (Configure exampleFmt fileDebug initial exampleWorld)) =
    [{| name := "bivalve.log"; closed := true |}] /\
  trace (snd (Configure exampleFmt fileDebug initial exampleWorld)) =
    [EvWrite (Opened 0)
       ("Log Config set to : &{Output:file Level:debug " ++
        "Filename:bivalve.log DisplayMinimal:true TerminalOutput:false}" ++
        nl) true].
Proof.
  split; [reflexivity|]. split; [reflexivity|].
  destruct (Configure_file_opened exampleFmt fileDebug initial exampleWorld
              eq_refl eq_refl) as (_ & Hfiles & Htrace).
  split; [rewrite Hfiles | rewrite Htrace]; reflexivity.
Defined.

Lemma console_delivery_witness :
  Output stdoutErrorMinimal <> "file" /\
  let g := fst (Configure exampleFmt stdoutErrorMinimal initial exampleWorld) in
  passes (EError "z") g = true /\
  received Stdout (trace (emit exampleFmt (EError "z") g None exampleWorld)) =
    ["z" ++ nl] /\
  received Stderr (trace (emit exampleFmt (EError "z") g None exampleWorld)) =
    [].
Proof.
  split; [discriminate|]. intros g. split; [reflexivity|].
  destruct (console_delivery exampleFmt stdoutErrorMinimal initial
              exampleWorld (EError "z") None exampleWorld)
    as [H1 H2]; [discriminate | reflexivity |].
  split.
  - exact H1.
  - apply (H2 Stderr). discriminate.
Defined.

Lemma Configure_echo_witness :
  Output stderrDebugColour <> "file" /\
  Level stderrDebugColour = "debug" /\
  trace (snd (Configure exampleFmt stderrDebugColour initial exampleWorld)) =
    [EvWrite Stderr
       (esc ++ "[0;36mLog Config set to : &{Output:stderr Level:debug " ++
        "Filename:bivalve.log DisplayMinimal:true TerminalOutput:true}" ++
        esc ++ "[0m" ++ nl) true].
Proof.
  split; [discriminate|]. split; [reflexivity|].
  rewrite (Configure_echo exampleFmt stderrDebugColour initial exampleWorld);
    [reflexivity | discriminate | reflexivity].
Defined.

Lemma full_header_witness :
  DisplayMinimal stdoutInfoFull = false /\
  header (fst (Configure exampleFmt stdoutInfoFull initial exampleWorld))
    (Some ("/home/user/go/src/app/main.go", 42))
    {| GoTime.sec := 63393490800; GoTime.nsec := 123456789;
       GoTime.offset := 3600 |} =
  "2009/11/10 23:00:00.123456 main.go:42: ".
Proof.
  split; [reflexivity|].
  rewrite (proj1 (full_header exampleFmt stdoutInfoFull initial exampleWorld
                    "/home/user/go/src/app/main.go" 42
                    {| GoTime.sec := 63393490800; GoTime.nsec := 123456789;
                       GoTime.offset := 3600 |} eq_refl)).
  reflexivity.
Defined.

Lemma init_panics_on_display_minimal_witness :
  envDisplayMinimal configDisplayMinimalKey <> EmptyString /\
  init exampleFmt envDisplayMinimal initial exampleWorld = None.
Proof.
  split; [discriminate|].
  apply init_panics_on_display_minimal. discriminate.
Defined.

Lemma init_configures_witness :
  envLevelDebug configDisplayMinimalKey = EmptyString /\
  option_map (fun out => level (fst out))
    (init exampleFmt envLevelDebug initial exampleWorld) = Some debugLevel /\
  option_map fst (init exampleFmt noEnv initial exampleWorld) = Some initial.
Proof.
  split; [reflexivity|]. split.
  - rewrite (proj1 (init_configures exampleFmt envLevelDebug initial
                      exampleWorld eq_refl)).
    reflexivity.
  - rewrite (proj1 (init_configures exampleFmt noEnv initial exampleWorld
                      eq_refl)).
    reflexivity.
Defined.

Lemma callSiteHeader_last_element_witness :
  noSlash "bivalve.go" = true /\
  callSiteHeader exampleFmt
    (Some ("/home/user/go/src/bivalve" ++ "/" ++ "bivalve.go", 143)) =
  "[bivalve.go:143]".
Proof.
  split; [reflexivity|].
  rewrite (proj1 (callSiteHeader_last_element exampleFmt
                    "/home/user/go/src/bivalve" "bivalve.go" 143 eq_refl)).
  reflexivity.
Defined.
